(** * Hinhhocthatde: the geometry tutor's document normalizer and project store

    A shallow embedding of the state logic of the application:

    - [services/geminiService.ts]: [generateGeometry], which asks the
      generation service for a document, parses it and fills in the defaults;
    - the [App] component: the project store kept in the component state
      ([projects], [currentProjectId]) with its initialising effect,
      [createProject], [deleteProject], [updateActiveProject],
      [handleSendMessage] and the callbacks handed to the chat panel and the
      canvas; the dragging of the floating assistant;
    - [components/ChatInterface.tsx]: the send button.

    Values that come out of [JSON.parse] are untyped at run time (the source
    casts them with [as GeometryData]), so they are kept here as JSON values.
    React state is passed explicitly; every reading of [Date.now()] is an
    argument of the handler that makes it. *)

From Stdlib Require Import ZArith List Ascii String Bool Lia.
From Stdlib Require Import Floats.SpecFloat.
From Stdlib Require Import Numbers.DecimalString Numbers.DecimalZ Numbers.DecimalPos.
Import ListNotations.

Open Scope string_scope.
Open Scope Z_scope.

(** ** JavaScript values *)

#[local] Unset Elimination Schemes.

(** A value produced by [JSON.parse].  Numbers are IEEE doubles; an object lists
    its own properties. *)
Inductive json : Type :=
| JNull
| JBool (b : bool)
| JNum (f : spec_float)
| JStr (s : string)
| JArr (items : list json)
| JObj (props : list (string * json)).

#[local] Set Elimination Schemes.

(** A property read or an optional field: [None] is [undefined]. *)
Definition jsval : Type := option json.

(** [ToBoolean] on a JSON value: [null], [false], [0], [-0], [NaN] and the
    empty string are falsy; every array and object is truthy. *)
Definition truthy (v : json) : bool :=
  match v with
  | JNull => false
  | JBool b => b
  | JNum (S754_zero _) => false
  | JNum S754_nan => false
  | JNum _ => true
  | JStr s => negb (String.eqb s "")
  | JArr _ => true
  | JObj _ => true
  end.

(** [a || d] where [d] is a literal. *)
Definition js_or (a : jsval) (d : json) : json :=
  match a with
  | Some v => if truthy v then v else d
  | None => d
  end.

(** [!s] is false exactly for a non-empty string ([s : string | null | undefined]). *)
Definition str_truthy (s : option string) : bool :=
  match s with
  | Some x => negb (String.eqb x "")
  | None => false
  end.

(** Own property of an object by key. *)
Fixpoint lookup (k : string) (props : list (string * json)) : jsval :=
  match props with
  | [] => None
  | (k', v) :: rest => if String.eqb k' k then Some v else lookup k rest
  end.

(** [o.k] for a value [o] that is not [null], and a key [k] that no prototype
    defines (the ten field names of a geometry document): own properties of an
    object, [undefined] on anything else. *)
Definition prop (o : json) (k : string) : jsval :=
  match o with
  | JObj props => lookup k props
  | _ => None
  end.

(** [Date.now().toString()] and [`${n}`] for an integer. *)
Definition toString (n : Z) : string := NilZero.string_of_int (Z.to_int n).

(** ** types *)

Module GeometryData.
(** Modelled from the spec: the declaration of [GeometryData] in [./types] is
    not among the sources; the fields are those of the spec's Scene, under
    the names [generateGeometry] gives them.  What a field holds at run time
    is whatever the document carried. *)
Record t : Type := Build {
  points : json;
  edges : json;
  faces : json;
  angles : json;
  circles : json;
  steps : json;
  reasoning : json;
  type : json;
  message : jsval;
  mathSolution : jsval
}.
End GeometryData.

(** The two values of [role] the source writes. *)
Inductive Role : Type := user | model.

Module ChatMessage.
(** Modelled from the spec: the declaration of [ChatMessage] in [./types] is
    not among the sources; the fields are those of the spec's Message.
    [text] is a JavaScript value because [handleSendMessage] stores
    [data.message || "Xong!"] in it unconverted. *)
Record t : Type := Build {
  id : string;
  role : Role;
  text : json;
  timestamp : Z
}.
End ChatMessage.

Module Project.
(** Modelled from the spec: the declaration of [Project] in [./types] is not
    among the sources; the fields are those [createProject] initialises. *)
Record t : Type := Build {
  id : string;
  name : string;
  subjectId : string;
  messages : list ChatMessage.t;
  geometryData : option GeometryData.t;
  currentStepIndex : Z;
  lastModified : Z
}.
End Project.

(** [Partial<Project>]: any subset of the fields. *)
Module Partial.
Record t : Type := Build {
  id : option string;
  name : option string;
  subjectId : option string;
  messages : option (list ChatMessage.t);
  geometryData : option (option GeometryData.t);
  currentStepIndex : option Z;
  lastModified : option Z
}.

Definition empty : t := Build None None None None None None None.
End Partial.

(** ** services/geminiService.ts *)

Inductive Error : Type :=
| ApiKeyMissing      (* Error("API Key is missing") *)
| ServiceError       (* generateContent rejected *)
| NoResponse         (* Error("No response from AI") *)
| SyntaxError        (* thrown by JSON.parse *)
| TypeError.         (* property read on null *)

Inductive Promise (A : Type) : Type :=
| Resolved (a : A)
| Rejected (e : Error).
Arguments Resolved {A} a.
Arguments Rejected {A} e.

(** How [ai.models.generateContent] settles: it rejects, or resolves with a
    response whose [text] may be undefined. *)
Inductive Response : Type :=
| ServiceRejects
| ServiceResponds (text : option string).

(** What [generateGeometry] reads from outside the program.  The request it
    builds (prompt, history, image) goes to the service only; the service's
    answer is an input here. *)
Record Runtime : Type := {
  API_KEY : option string;
  generateContent : Response;
  JSON_parse : string -> option json
}.

(** The object literal [generateGeometry] returns (lines 177-188). *)
Definition normalize (parsed : json) : Promise GeometryData.t :=
  match parsed with
  | JNull => Rejected TypeError
  | _ =>
      Resolved {|
        GeometryData.points := js_or (prop parsed "points") (JArr []);
        GeometryData.edges := js_or (prop parsed "edges") (JArr []);
        GeometryData.faces := js_or (prop parsed "faces") (JArr []);
        GeometryData.angles := js_or (prop parsed "angles") (JArr []);
        GeometryData.circles := js_or (prop parsed "circles") (JArr []);
        GeometryData.steps := js_or (prop parsed "steps") (JArr []);
        GeometryData.reasoning := js_or (prop parsed "reasoning") (JArr []);
        GeometryData.type := js_or (prop parsed "type") (JStr "2D");
        GeometryData.message := prop parsed "message";
        GeometryData.mathSolution := prop parsed "mathSolution"
      |}
  end.

Definition generateGeometry (rt : Runtime) : Promise GeometryData.t :=
  if negb (str_truthy (API_KEY rt)) then Rejected ApiKeyMissing
  else
    match generateContent rt with
    | ServiceRejects => Rejected ServiceError
    | ServiceResponds None => Rejected NoResponse
    | ServiceResponds (Some text) =>
        if String.eqb text "" then Rejected NoResponse
        else
          match JSON_parse rt text with
          | None => Rejected SyntaxError
          | Some parsed => normalize parsed
          end
    end.

(** ** The App component *)

(** The component state the project logic lives in. *)
Record State : Type := {
  projects : list Project.t;
  currentProjectId : option string;
  isLoading : bool
}.

Definition setProjects (f : list Project.t -> list Project.t) (s : State) : State :=
  {| projects := f (projects s);
     currentProjectId := currentProjectId s;
     isLoading := isLoading s |}.

Definition setCurrentProjectId (id : option string) (s : State) : State :=
  {| projects := projects s;
     currentProjectId := id;
     isLoading := isLoading s |}.

Definition setIsLoading (b : bool) (s : State) : State :=
  {| projects := projects s;
     currentProjectId := currentProjectId s;
     isLoading := b |}.

(** [p.id === cur] for [cur : string | null]. *)
Definition id_is (cur : option string) (p : Project.t) : bool :=
  match cur with
  | Some c => String.eqb (Project.id p) c
  | None => false
  end.

(** [cur === id] for [cur : string | null]. *)
Definition same_id (cur : option string) (id : string) : bool :=
  match cur with
  | Some c => String.eqb c id
  | None => false
  end.

(** One property of [{ ...p, ...updates }]: the value [updates] gives it, or
    else the one [p] has. *)
Definition overridden {A : Type} (given : option A) (own : A) : A :=
  match given with
  | Some v => v
  | None => own
  end.

(** [{ ...p, ...updates }]. *)
Definition spread (p : Project.t) (updates : Partial.t) : Project.t :=
  {| Project.id := overridden (Partial.id updates) (Project.id p);
     Project.name := overridden (Partial.name updates) (Project.name p);
     Project.subjectId := overridden (Partial.subjectId updates) (Project.subjectId p);
     Project.messages := overridden (Partial.messages updates) (Project.messages p);
     Project.geometryData := overridden (Partial.geometryData updates) (Project.geometryData p);
     Project.currentStepIndex :=
       overridden (Partial.currentStepIndex updates) (Project.currentStepIndex p);
     Project.lastModified := overridden (Partial.lastModified updates) (Project.lastModified p) |}.

(** [{ ...q, lastModified: now }]. *)
Definition stamp (now : Z) (q : Project.t) : Project.t :=
  {| Project.id := Project.id q;
     Project.name := Project.name q;
     Project.subjectId := Project.subjectId q;
     Project.messages := Project.messages q;
     Project.geometryData := Project.geometryData q;
     Project.currentStepIndex := Project.currentStepIndex q;
     Project.lastModified := now |}.

(** [updateActiveProject] as the render that saw [cur] as [currentProjectId]
    defines it.  [now] is the [Date.now()] of the updater (one reading: with
    distinct ids the updater evaluates it once). *)
Definition updateActiveProject
    (cur : option string) (updates : Partial.t) (now : Z) (s : State) : State :=
  setProjects
    (fun prev => map (fun p => if id_is cur p then stamp now (spread p updates) else p) prev)
    s.

(** The three [Date.now()] readings a handler makes, by what they are used for. *)
Record Clock : Type := {
  forId : Z;
  forTimestamp : Z;
  forLastModified : Z
}.

(** What the continuation of [handleSendMessage] after [await] still holds from
    the render the call was made in. *)
Record Closure : Type := {
  target : option string;
  updatedMessages : list ChatMessage.t
}.

(** ** The request of [generateGeometry] (geminiService.ts, lines 144-157) *)

(** [s] without its first [n] characters. *)
Fixpoint drop (n : nat) (s : string) : string :=
  match n, s with
  | O, _ => s
  | S n', String _ s' => drop n' s'
  | S _, EmptyString => EmptyString
  end.

(** The first occurrence of [sep] in [s], from the left: the text before it
    and the text after it.  (Strings are sequences of bytes here and of UTF-16
    units in the source; for a separator of ASCII characters the occurrences
    are the same.) *)
Fixpoint cut (sep s : string) : option (string * string) :=
  if String.prefix sep s then Some (EmptyString, drop (String.length sep) s)
  else
    match s with
    | EmptyString => None
    | String c s' =>
        match cut sep s' with
        | Some (before, after) => Some (String c before, after)
        | None => None
        end
    end.

(** [s.includes(sep)]. *)
Definition includes (sep s : string) : bool :=
  match cut sep s with
  | Some _ => true
  | None => false
  end.

(** [s.split(sep)[1]] for a separator that is not empty: the text between the
    first occurrence and the next one after it, [undefined] when [sep] does
    not occur. *)
Definition secondPiece (sep s : string) : option string :=
  match cut sep s with
  | Some (_, rest) =>
      Some match cut sep rest with
           | Some (piece, _) => piece
           | None => rest
           end
  | None => None
  end.

(** [base64Data] (lines 147-149). *)
Definition base64Data (imageBase64 : string) : option string :=
  if includes "base64," imageBase64 then secondPiece "base64," imageBase64
  else Some imageBase64.

Inductive Part : Type :=
| TextPart (text : string)
| InlineData (mimeType : string) (data : option string).

Definition newline : string := String (Ascii.ascii_of_nat 10) EmptyString.

(** [parts] as it is when the request is sent; [history] defaults to the
    empty string. *)
Definition requestParts
    (prompt : string) (history : option string) (imageBase64 : option string) : list Part :=
  let history := match history with Some h => h | None => "" end in
  TextPart ("Lịch sử chat:" ++ newline ++ history ++ newline ++ newline
            ++ "Yêu cầu mới của học sinh: " ++ prompt)
  :: match imageBase64 with
     | Some image =>
         if String.eqb image "" then []
         else [InlineData "image/jpeg" (base64Data image)]
     | None => []
     end.

(** ** The floating assistant (App, lines 42-44 and 74-98)

    Positions are in whole pixels, as the mouse and the window report them. *)

Module Pos.
Record t : Type := Build { x : Z; y : Z }.
End Pos.

(** A mouse event, or a touch event with its list of touches. *)
Inductive DragEvent : Type :=
| MouseEvent (clientX clientY : Z)
| TouchEvent (touches : list (Z * Z)).

(** [window.innerWidth] and [window.innerHeight]. *)
Record Window : Type := {
  innerWidth : Z;
  innerHeight : Z
}.

Record Bubble : Type := {
  bubblePos : Pos.t;
  isDragging : bool;
  dragStartPos : Pos.t;
  isChatOpen : bool
}.

(** The state the component starts with. *)
Definition initialBubble (w : Window) : Bubble :=
  {| bubblePos := {| Pos.x := innerWidth w - 80; Pos.y := innerHeight w - 150 |};
     isDragging := false;
     dragStartPos := {| Pos.x := 0; Pos.y := 0 |};
     isChatOpen := false |}.

(** [clientX] and [clientY] as the handlers read them; reading them off a touch
    event without touches throws. *)
Definition client (e : DragEvent) : option (Z * Z) :=
  match e with
  | MouseEvent cx cy => Some (cx, cy)
  | TouchEvent (touch :: _) => Some touch
  | TouchEvent [] => None
  end.

Definition handleDragStart (e : DragEvent) (b : Bubble) : option Bubble :=
  match client e with
  | Some (clientX, clientY) =>
      Some {| bubblePos := bubblePos b;
              isDragging := true;
              dragStartPos :=
                {| Pos.x := clientX - Pos.x (bubblePos b);
                   Pos.y := clientY - Pos.y (bubblePos b) |};
              isChatOpen := isChatOpen b |}
  | None => None
  end.

Definition handleDragMove (w : Window) (e : DragEvent) (b : Bubble) : option Bubble :=
  if negb (isDragging b) then Some b
  else
    match client e with
    | Some (clientX, clientY) =>
        let newX := clientX - Pos.x (dragStartPos b) in
        let newY := clientY - Pos.y (dragStartPos b) in
        let newX :=
          Z.max 10 (Z.min (innerWidth w - (if isChatOpen b then 360 else 70)) newX) in
        let newY :=
          Z.max 10 (Z.min (innerHeight w - (if isChatOpen b then 550 else 70)) newY) in
        Some {| bubblePos := {| Pos.x := newX; Pos.y := newY |};
                isDragging := isDragging b;
                dragStartPos := dragStartPos b;
                isChatOpen := isChatOpen b |}
    | None => None
    end.

Definition handleDragEnd (b : Bubble) : Bubble :=
  {| bubblePos := bubblePos b;
     isDragging := false;
     dragStartPos := dragStartPos b;
     isChatOpen := isChatOpen b |}.

(** ** The chat panel's send button (ChatInterface.tsx, lines 90-95) *)

Record Composer : Type := {
  input : string;
  selectedImage : option string
}.

Section ChatInterface.

(** [String.prototype.trim]. *)
Variable trim : string -> string.

(** The new state of the panel and, when it is called, the arguments of
    [onSendMessage]. *)
Definition handleSend (c : Composer) : Composer * option (string * option string) :=
  if String.eqb (trim (input c)) "" && negb (str_truthy (selectedImage c))
  then (c, None)
  else
    ({| input := ""; selectedImage := None |},
     Some (trim (input c),
           if str_truthy (selectedImage c) then selectedImage c else None)).

End ChatInterface.

(** ** The initialising effect's choice (App, line 52) *)

(** One step of a stable sort by decreasing [lastModified]: [p], which stood
    before all of [sorted], goes in front of the first project that is not
    more recent than it. *)
Fixpoint insertRecent (p : Project.t) (sorted : list Project.t) : list Project.t :=
  match sorted with
  | [] => [p]
  | q :: rest =>
      if Project.lastModified q <=? Project.lastModified p then p :: sorted
      else q :: insertRecent p rest
  end.

(** [[...l].sort((a, b) => b.lastModified - a.lastModified)]: [sort] is stable
    and the comparison is a total preorder, so the result is the one stable
    arrangement by decreasing [lastModified]. *)
Definition sortByLastModified (l : list Project.t) : list Project.t :=
  fold_right insertRecent [] l.

Section App.

(** [Date.now()] when the module was evaluated. *)
Variable loadTime : Z.

Definition DEFAULT_WELCOME_MSG : ChatMessage.t :=
  {| ChatMessage.id := "welcome";
     ChatMessage.role := model;
     ChatMessage.text :=
       JStr "Chào em! Thầy là trợ lý Toán học. Em có thể chụp ảnh đề bài hoặc nhắn tin để thầy hỗ trợ nhé!";
     ChatMessage.timestamp := loadTime |}.

(** *** What a render derives from the state *)

Definition activeProject (s : State) : option Project.t :=
  find (id_is (currentProjectId s)) (projects s).

Definition messages (s : State) : list ChatMessage.t :=
  match activeProject s with
  | Some p => Project.messages p
  | None => [DEFAULT_WELCOME_MSG]
  end.

Definition geometryData (s : State) : option GeometryData.t :=
  match activeProject s with
  | Some p => Project.geometryData p
  | None => None
  end.

Definition currentStepIndex (s : State) : Z :=
  match activeProject s with
  | Some p => if Project.currentStepIndex p =? 0 then 0 else Project.currentStepIndex p
  | None => 0
  end.

(** *** Project functions *)

Definition createProject (nameInput : option string) (now : Clock) (s : State) : State :=
  let numbered := "Bài toán " ++ toString (Z.of_nat (List.length (projects s)) + 1) in
  let name :=
    match nameInput with
    | Some n => if String.eqb n "" then numbered else n
    | None => numbered
    end in
  let newProj :=
    {| Project.id := toString (forId now);
       Project.name := name;
       Project.subjectId := "math";
       Project.messages :=
         [ {| ChatMessage.id := ChatMessage.id DEFAULT_WELCOME_MSG;
              ChatMessage.role := ChatMessage.role DEFAULT_WELCOME_MSG;
              ChatMessage.text := ChatMessage.text DEFAULT_WELCOME_MSG;
              ChatMessage.timestamp := forTimestamp now |} ];
       Project.geometryData := None;
       Project.currentStepIndex := 0;
       Project.lastModified := forLastModified now |} in
  setCurrentProjectId (Some (Project.id newProj))
    (setProjects (fun prev => newProj :: prev) s).

(** [confirmed] is the answer of [window.confirm]. *)
Definition deleteProject (id : string) (confirmed : bool) (s : State) : State :=
  if confirmed then
    let newProjects := filter (fun p => negb (String.eqb (Project.id p) id)) (projects s) in
    let s' := setProjects (fun _ => newProjects) s in
    if same_id (currentProjectId s) id && (0 <? Z.of_nat (List.length newProjects))
    then
      match newProjects with
      | first :: _ => setCurrentProjectId (Some (Project.id first)) s'
      | [] => s'
      end
    else s'
  else s.

(** The sidebar entry of a project: [onClick={() => setCurrentProjectId(proj.id)}]. *)
Definition selectProject (id : string) (s : State) : State :=
  setCurrentProjectId (Some id) s.

(** The callback handed to the chat panel:
    [(idx) => updateActiveProject({ currentStepIndex: idx })]. *)
Definition setCurrentStepIndex (idx : Z) (now : Z) (s : State) : State :=
  updateActiveProject (currentProjectId s)
    {| Partial.id := None; Partial.name := None; Partial.subjectId := None;
       Partial.messages := None; Partial.geometryData := None;
       Partial.currentStepIndex := Some idx; Partial.lastModified := None |}
    now s.

(** The callback handed to the canvas:
    [(newData) => updateActiveProject({ geometryData: newData })]. *)
Definition onDataUpdate (newData : GeometryData.t) (now : Z) (s : State) : State :=
  updateActiveProject (currentProjectId s)
    {| Partial.id := None; Partial.name := None; Partial.subjectId := None;
       Partial.messages := None; Partial.geometryData := Some (Some newData);
       Partial.currentStepIndex := None; Partial.lastModified := None |}
    now s.

(** *** handleSendMessage

    The function runs in two turns of the event loop.  [send] is the part up
    to [await]: it works on the state of the render the call is made in and
    leaves a [Closure] behind.  [settle] is the part after [await]: its
    updaters run on whatever the state is by then, but [updateActiveProject]
    and [updatedMessages] are still those of the calling render. *)

Definition send (text : string) (now : Clock) (s : State) : State * option Closure :=
  if negb (str_truthy (currentProjectId s)) then (s, None)
  else
    let userMsg :=
      {| ChatMessage.id := toString (forId now);
         ChatMessage.role := user;
         ChatMessage.text := JStr text;
         ChatMessage.timestamp := forTimestamp now |} in
    let updated := (messages s ++ [userMsg])%list in
    let s1 :=
      updateActiveProject (currentProjectId s)
        {| Partial.id := None; Partial.name := None; Partial.subjectId := None;
           Partial.messages := Some updated; Partial.geometryData := None;
           Partial.currentStepIndex := None; Partial.lastModified := None |}
        (forLastModified now) s in
    (setIsLoading true s1,
     Some {| target := currentProjectId s; updatedMessages := updated |}).

Definition aiMsg (data : GeometryData.t) (now : Clock) : ChatMessage.t :=
  {| ChatMessage.id := toString (forId now + 1);
     ChatMessage.role := model;
     ChatMessage.text := js_or (GeometryData.message data) (JStr "Xong!");
     ChatMessage.timestamp := forTimestamp now |}.

(** The message of the [catch] branch. *)
Definition errorMsg (now : Clock) : ChatMessage.t :=
  {| ChatMessage.id := toString (forId now);
     ChatMessage.role := model;
     ChatMessage.text := JStr "Lỗi rồi em ạ.";
     ChatMessage.timestamp := forTimestamp now |}.

Definition settle
    (k : Closure) (result : Promise GeometryData.t) (now : Clock) (s : State) : State :=
  let s1 :=
    match result with
    | Resolved data =>
        updateActiveProject (target k)
          {| Partial.id := None; Partial.name := None; Partial.subjectId := None;
             Partial.messages := Some (updatedMessages k ++ [aiMsg data now])%list;
             Partial.geometryData := Some (Some data);
             Partial.currentStepIndex := Some 0; Partial.lastModified := None |}
          (forLastModified now) s
    | Rejected _ =>
        updateActiveProject (target k)
          {| Partial.id := None; Partial.name := None; Partial.subjectId := None;
             Partial.messages := Some (updatedMessages k ++ [errorMsg now])%list;
             Partial.geometryData := None;
             Partial.currentStepIndex := None; Partial.lastModified := None |}
          (forLastModified now) s
    end in
  setIsLoading false s1.

(** A call that nothing interleaves with: [before] and [after] are the clock
    readings on either side of the [await]. *)
Definition handleSendMessage
    (text : string) (rt : Runtime) (before after : Clock) (s : State) : State :=
  match send text before s with
  | (s1, Some k) => settle k (generateGeometry rt) after s1
  | (s1, None) => s1
  end.

(** *** Scenarios

    States reached by running the handlers from an empty store; the examples
    at the end of the file are stated on them. *)

Definition emptyStore : State :=
  {| projects := []; currentProjectId := None; isLoading := false |}.

(** All readings of one handler fall in the same millisecond [t]. *)
Definition at_ (t : Z) : Clock :=
  {| forId := t; forTimestamp := t; forLastModified := t |}.

(** One project, created at time 1. *)
Definition oneProject : State := createProject None (at_ 1) emptyStore.

(** The project [oneProject] holds. *)
Definition project1 : Project.t :=
  {| Project.id := "1";
     Project.name := "Bài toán 1";
     Project.subjectId := "math";
     Project.messages :=
       [ {| ChatMessage.id := "welcome";
            ChatMessage.role := model;
            ChatMessage.text := ChatMessage.text DEFAULT_WELCOME_MSG;
            ChatMessage.timestamp := 1 |} ];
     Project.geometryData := None;
     Project.currentStepIndex := 0;
     Project.lastModified := 1 |}.

(** A second project is created at time 2 and is the active one. *)
Definition twoProjects : State := createProject None (at_ 2) oneProject.

(** Projects created at times 1, 2 and 3 (the sidebar lists 3, 2, 1); then
    project 1 is opened and its cursor moved at time 10, and project 3 is
    opened again. *)
Definition threeProjects : State :=
  selectProject "3"
    (setCurrentStepIndex 1 10
       (selectProject "1"
          (createProject None (at_ 3)
             (createProject None (at_ 2) oneProject)))).

Definition step (n : Z) (ids : list string) : json :=
  JObj [("stepNumber", JNum (S754_finite false (Z.to_pos n) 0));
        ("description", JStr "ve hinh");
        ("activeElementIds", JArr (map JStr ids))].

(** A document with a three-step walkthrough and a message. *)
Definition threeStepDocument : json :=
  JObj [("points", JArr []);
        ("edges", JArr []);
        ("steps", JArr [step 1 ["A"]; step 2 ["B"]; step 3 ["C"]]);
        ("type", JStr "2D");
        ("message", JStr "Thay ve xong roi.")].

(** A service that answers with [doc]. *)
Definition answering (doc : json) : Runtime :=
  {| API_KEY := Some "key";
     generateContent := ServiceResponds (Some "{}");
     JSON_parse := fun _ => Some doc |}.

(** No credential in the environment. *)
Definition withoutKey : Runtime :=
  {| API_KEY := None;
     generateContent := ServiceRejects;
     JSON_parse := fun _ => None |}.

(** What [generateGeometry] makes of [threeStepDocument]. *)
Definition threeStepScene : GeometryData.t :=
  {| GeometryData.points := JArr [];
     GeometryData.edges := JArr [];
     GeometryData.faces := JArr [];
     GeometryData.angles := JArr [];
     GeometryData.circles := JArr [];
     GeometryData.steps := JArr [step 1 ["A"]; step 2 ["B"]; step 3 ["C"]];
     GeometryData.reasoning := JArr [];
     GeometryData.type := JStr "2D";
     GeometryData.message := Some (JStr "Thay ve xong roi.");
     GeometryData.mathSolution := None |}.

(** The single project has received the three-step scene: the message is
    sent at time 4 and the answer arrives at time 5. *)
Definition withThreeSteps : State :=
  handleSendMessage "ve tam giac" (answering threeStepDocument) (at_ 4) (at_ 5) oneProject.

(** The project [withThreeSteps] holds. *)
Definition project1WithScene : Project.t :=
  {| Project.id := "1";
     Project.name := "Bài toán 1";
     Project.subjectId := "math";
     Project.messages :=
       [ {| ChatMessage.id := "welcome";
            ChatMessage.role := model;
            ChatMessage.text := ChatMessage.text DEFAULT_WELCOME_MSG;
            ChatMessage.timestamp := 1 |};
         {| ChatMessage.id := "4";
            ChatMessage.role := user;
            ChatMessage.text := JStr "ve tam giac";
            ChatMessage.timestamp := 4 |};
         {| ChatMessage.id := "6";
            ChatMessage.role := model;
            ChatMessage.text := JStr "Thay ve xong roi.";
            ChatMessage.timestamp := 5 |} ];
     Project.geometryData := Some threeStepScene;
     Project.currentStepIndex := 0;
     Project.lastModified := 5 |}.

(** A document whose [type] is none of the two the schema names. *)
Definition document4D : json := JObj [("points", JArr []); ("type", JStr "4D")].

(** *** The spec's vocabulary *)

(** From the spec (4.2): [n] clamped to [[0, steps.length - 1]]. *)
Definition clamped (n len : Z) : Z := Z.max 0 (Z.min n (len - 1)).

(** [steps.length] of a scene. *)
Definition stepsLength (g : GeometryData.t) : Z :=
  match GeometryData.steps g with
  | JArr items => Z.of_nat (List.length items)
  | _ => 0
  end.

(** The seven container fields of a scene, by name. *)
Definition containers (g : GeometryData.t) : list (string * json) :=
  [("points", GeometryData.points g);
   ("edges", GeometryData.edges g);
   ("faces", GeometryData.faces g);
   ("angles", GeometryData.angles g);
   ("circles", GeometryData.circles g);
   ("steps", GeometryData.steps g);
   ("reasoning", GeometryData.reasoning g)].

Definition containerNames : list string :=
  ["points"; "edges"; "faces"; "angles"; "circles"; "steps"; "reasoning"].

Definition isArray (v : json) : bool :=
  match v with
  | JArr _ => true
  | _ => false
  end.

(** A field of a raw document is a sequence when it is there at all. *)
Definition absentOrArray (v : jsval) : bool :=
  match v with
  | None => true
  | Some x => isArray x
  end.

Definition is2Dor3D (v : json) : bool :=
  match v with
  | JStr d => String.eqb d "2D" || String.eqb d "3D"
  | _ => false
  end.

(** The projects of [l] that the sidebar shows as the active one. *)
Definition shownActive (s : State) : list Project.t :=
  filter (id_is (currentProjectId s)) (projects s).

(** [q] has the greatest [lastModified] of [l]. *)
Definition greatestLastModified (q : Project.t) (l : list Project.t) : Prop :=
  In q l /\ forall r, In r l -> Project.lastModified r <= Project.lastModified q.

(** *** The initialising effect (lines 48-56)

    What it does to the project store; opening the sidebar on a wide window is
    outside [State]. *)
Definition initialize (now : Clock) (s : State) : State :=
  if Z.of_nat (List.length (projects s)) =? 0 then
    createProject (Some "Bài toán mới") now s
  else if negb (str_truthy (currentProjectId s)) then
    match sortByLastModified (projects s) with
    | mostRecent :: _ => setCurrentProjectId (Some (Project.id mostRecent)) s
    | [] => s
    end
  else s.

(** *** What the user can do

    The page is the component's state together with the calls of
    [handleSendMessage] that wait for their answer.  The events are what the
    component answers, with the clock readings and the service's behaviour
    each one meets. *)
Record Page : Type := {
  state : State;
  inFlight : list Closure
}.

Inductive Event : Type :=
| Mount (now : Clock)
| NewProject (now : Clock)
| OpenProject (id : string)
| DeleteProject (id : string) (confirmed : bool)
| Send (text : string) (now : Clock)
| Answer (n : nat) (rt : Runtime) (now : Clock)
| MoveCursor (idx : Z) (now : Z)
| EditScene (newData : GeometryData.t) (now : Z).

Definition onState (f : State -> State) (pg : Page) : Page :=
  {| state := f (state pg); inFlight := inFlight pg |}.

(** [Send] is [handleSendMessage] up to its [await]; [Answer n] is the rest of
    the [n]-th waiting call, run when its request settles. *)
Definition handle (e : Event) (pg : Page) : Page :=
  match e with
  | Mount now => onState (initialize now) pg
  | NewProject now => onState (createProject None now) pg
  | OpenProject id => onState (selectProject id) pg
  | DeleteProject id confirmed => onState (deleteProject id confirmed) pg
  | Send text now =>
      match send text now (state pg) with
      | (s', Some k) => {| state := s'; inFlight := k :: inFlight pg |}
      | (s', None) => {| state := s'; inFlight := inFlight pg |}
      end
  | Answer n rt now =>
      match nth_error (inFlight pg) n with
      | Some k =>
          {| state := settle k (generateGeometry rt) now (state pg);
             inFlight := (firstn n (inFlight pg) ++ skipn (S n) (inFlight pg))%list |}
      | None => pg
      end
  | MoveCursor idx now => onState (setCurrentStepIndex idx now) pg
  | EditScene newData now => onState (onDataUpdate newData now) pg
  end.

(** What the page allows after the last project was created at time [last]:
    the clock has moved on when a project is created, and only a project of
    the sidebar can be opened. *)
Definition allowed (last : Z) (e : Event) (pg : Page) : bool :=
  match e with
  | Mount now => last <? forId now
  | NewProject now => last <? forId now
  | OpenProject id => existsb (fun p => String.eqb (Project.id p) id) (projects (state pg))
  | _ => true
  end.

(** The reading that gave the last project its id. *)
Definition lastCreation (last : Z) (e : Event) : Z :=
  match e with
  | Mount now => forId now
  | NewProject now => forId now
  | _ => last
  end.

(** The pages reached from an empty store with nothing in flight. *)
Inductive reachable : Z -> Page -> Prop :=
| reach_start (t : Z) : reachable t {| state := emptyStore; inFlight := [] |}
| reach_event (last : Z) (pg : Page) (e : Event) :
    reachable last pg ->
    allowed last e pg = true ->
    reachable (lastCreation last e) (handle e pg).

(** ** Properties *)

(** *** The store's single mutation path *)

Lemma id_is_true (cur : option string) (p : Project.t) :
  id_is cur p = true <-> cur = Some (Project.id p).
Proof.
  destruct cur as [c|]; simpl.
  - rewrite String.eqb_eq. split; intro H.
    + now subst c.
    + now injection H as ->.
  - split; discriminate.
Qed.

Lemma id_is_false (cur : option string) (p : Project.t) :
  id_is cur p = false <-> cur <> Some (Project.id p).
Proof.
  rewrite <- id_is_true. destruct (id_is cur p); split; congruence.
Qed.

(** The two cases of an updater at a project [p]: it is the target and gets the
    merged record, or it is not and stays. *)
Ltac at_project cur p :=
  let E := fresh "E" in
  destruct (id_is cur p) eqn:E;
  [ eexists; split; [reflexivity|]; split;
    [ let Hne := fresh "Hne" in
      intro Hne; apply id_is_false in Hne; congruence
    | intros _; repeat split ]
  | exists p; split; [reflexivity|]; split;
    [ reflexivity
    | let Heq := fresh "Heq" in
      intro Heq; apply id_is_true in Heq; congruence ] ].

Lemma nth_error_updateActiveProject cur updates now s i :
  nth_error (projects (updateActiveProject cur updates now s)) i =
  option_map (fun p => if id_is cur p then stamp now (spread p updates) else p)
    (nth_error (projects s) i).
Proof. apply nth_error_map. Qed.

(** C9.  [updateActiveProject] applied for the id [cur]: a project with that
    id gets exactly the given fields merged in and [lastModified] set to the
    current time, its other fields stay as they were, and every other project
    of the store stays as it was, at its place. *)
Theorem updateActiveProject_merges_and_frames
    (cur : option string) (updates : Partial.t) (now : Z) (s : State)
    (i : nat) (p : Project.t) :
  nth_error (projects s) i = Some p ->
  let s' := updateActiveProject cur updates now s in
  List.length (projects s') = List.length (projects s) /\
  currentProjectId s' = currentProjectId s /\
  exists p',
    nth_error (projects s') i = Some p' /\
    (cur <> Some (Project.id p) -> p' = p) /\
    (cur = Some (Project.id p) ->
     Project.id p' = overridden (Partial.id updates) (Project.id p) /\
     Project.name p' = overridden (Partial.name updates) (Project.name p) /\
     Project.subjectId p' = overridden (Partial.subjectId updates) (Project.subjectId p) /\
     Project.messages p' = overridden (Partial.messages updates) (Project.messages p) /\
     Project.geometryData p' =
       overridden (Partial.geometryData updates) (Project.geometryData p) /\
     Project.currentStepIndex p' =
       overridden (Partial.currentStepIndex updates) (Project.currentStepIndex p) /\
     Project.lastModified p' = now).
Proof.
  intros Hp s'. subst s'.
  split; [apply length_map|].
  split; [reflexivity|].
  rewrite nth_error_updateActiveProject, Hp. cbn [option_map].
  at_project cur p.
Qed.

(** *** The active project across an update *)

Lemma find_id_is_map (cur : option string) (f : Project.t -> Project.t) l :
  (forall p, Project.id (f p) = Project.id p) ->
  find (id_is cur) (map f l) = option_map f (find (id_is cur) l).
Proof.
  intro Hid. induction l as [|q l IH]; simpl; [reflexivity|].
  replace (id_is cur (f q)) with (id_is cur q)
    by (unfold id_is; now rewrite Hid).
  destruct (id_is cur q); [reflexivity | exact IH].
Qed.

Lemma activeProject_id (s : State) (p : Project.t) :
  activeProject s = Some p -> currentProjectId s = Some (Project.id p).
Proof.
  intro H. apply find_some in H. now apply id_is_true.
Qed.

Lemma activeProject_updateActiveProject (updates : Partial.t) (now : Z) (s : State) :
  Partial.id updates = None ->
  activeProject (updateActiveProject (currentProjectId s) updates now s) =
  option_map (fun p => stamp now (spread p updates)) (activeProject s).
Proof.
  intro Hid. unfold activeProject, updateActiveProject, setProjects. simpl.
  rewrite find_id_is_map.
  - destruct (find (id_is (currentProjectId s)) (projects s)) as [p|] eqn:E;
      [|reflexivity].
    simpl. apply find_some in E. destruct E as [_ E]. now rewrite E.
  - intro p. destruct (id_is (currentProjectId s) p); [|reflexivity].
    simpl. now rewrite Hid.
Qed.

(** What one uninterrupted [handleSendMessage] does to the active project. *)
Lemma handleSendMessage_activeProject
    (text : string) (rt : Runtime) (before after : Clock) (s : State) (p : Project.t) :
  activeProject s = Some p ->
  str_truthy (currentProjectId s) = true ->
  let userMsg :=
    {| ChatMessage.id := toString (forId before);
       ChatMessage.role := user;
       ChatMessage.text := JStr text;
       ChatMessage.timestamp := forTimestamp before |} in
  let s' := handleSendMessage text rt before after s in
  currentProjectId s' = currentProjectId s /\
  activeProject s' =
  Some
    match generateGeometry rt with
    | Resolved data =>
        {| Project.id := Project.id p;
           Project.name := Project.name p;
           Project.subjectId := Project.subjectId p;
           Project.messages := (Project.messages p ++ [userMsg; aiMsg data after])%list;
           Project.geometryData := Some data;
           Project.currentStepIndex := 0;
           Project.lastModified := forLastModified after |}
    | Rejected _ =>
        {| Project.id := Project.id p;
           Project.name := Project.name p;
           Project.subjectId := Project.subjectId p;
           Project.messages := (Project.messages p ++ [userMsg; errorMsg after])%list;
           Project.geometryData := Project.geometryData p;
           Project.currentStepIndex := Project.currentStepIndex p;
           Project.lastModified := forLastModified after |}
    end.
Proof.
  intros Hp Hcur userMsg s'. subst s'.
  unfold handleSendMessage, send. rewrite Hcur. cbn [negb fst snd].
  unfold messages. rewrite Hp.
  set (u1 := Partial.Build _ _ _ _ _ _ _).
  set (s1 := setIsLoading true (updateActiveProject (currentProjectId s) u1 (forLastModified before) s)).
  assert (Hcur1 : currentProjectId s1 = currentProjectId s) by reflexivity.
  assert (Hp1 : activeProject s1 = Some (stamp (forLastModified before) (spread p u1))).
  { unfold s1. change (activeProject (setIsLoading true ?x)) with (activeProject x).
    rewrite activeProject_updateActiveProject by reflexivity. now rewrite Hp. }
  unfold settle. cbn [target updatedMessages].
  destruct (generateGeometry rt) as [data|e].
  - split; [reflexivity|].
    change (activeProject (setIsLoading false ?x)) with (activeProject x).
    rewrite <- Hcur1.
    rewrite activeProject_updateActiveProject by reflexivity.
    rewrite Hp1. cbn. rewrite <- app_assoc. reflexivity.
  - split; [reflexivity|].
    change (activeProject (setIsLoading false ?x)) with (activeProject x).
    rewrite <- Hcur1.
    rewrite activeProject_updateActiveProject by reflexivity.
    rewrite Hp1. cbn. rewrite <- app_assoc. reflexivity.
Qed.

(** *** Generation *)

(** The three ways a generation fails: no credential, the service rejects,
    the answer is not a document. *)
Lemma generateGeometry_rejects (rt : Runtime) :
  (str_truthy (API_KEY rt) = false -> generateGeometry rt = Rejected ApiKeyMissing) /\
  (str_truthy (API_KEY rt) = true -> generateContent rt = ServiceRejects ->
   generateGeometry rt = Rejected ServiceError) /\
  (forall text,
      str_truthy (API_KEY rt) = true ->
      generateContent rt = ServiceResponds (Some text) ->
      JSON_parse rt text = None ->
      exists e, generateGeometry rt = Rejected e).
Proof.
  unfold generateGeometry. repeat split.
  - now intros ->.
  - now intros -> ->.
  - intros text -> -> Hparse. cbn [negb].
    destruct (String.eqb text ""); [now eexists|].
    rewrite Hparse. now eexists.
Qed.

(** C4.  A generation that fails, for whatever reason, leaves the scene of the
    project it was sent from as it was and puts one failure message, after the
    user's message, where the reply would have been.  When the next
    generation on the project succeeds, the scene is that call's normalized
    result and the transcript has the failure message of the first call and,
    after it, the reply of the second. *)
Theorem failed_generation_keeps_scene
    (text1 text2 : string) (rt1 rt2 : Runtime) (e : Error) (data : GeometryData.t)
    (before1 after1 before2 after2 : Clock) (s : State) (p : Project.t) :
  activeProject s = Some p ->
  str_truthy (currentProjectId s) = true ->
  generateGeometry rt1 = Rejected e ->
  generateGeometry rt2 = Resolved data ->
  let userMsg1 :=
    {| ChatMessage.id := toString (forId before1);
       ChatMessage.role := user;
       ChatMessage.text := JStr text1;
       ChatMessage.timestamp := forTimestamp before1 |} in
  let userMsg2 :=
    {| ChatMessage.id := toString (forId before2);
       ChatMessage.role := user;
       ChatMessage.text := JStr text2;
       ChatMessage.timestamp := forTimestamp before2 |} in
  let s1 := handleSendMessage text1 rt1 before1 after1 s in
  let s2 := handleSendMessage text2 rt2 before2 after2 s1 in
  ChatMessage.role (errorMsg after1) = model /\
  ChatMessage.text (errorMsg after1) = JStr "Lỗi rồi em ạ." /\
  (exists p1,
      activeProject s1 = Some p1 /\
      Project.id p1 = Project.id p /\
      Project.geometryData p1 = Project.geometryData p /\
      Project.messages p1 = (Project.messages p ++ [userMsg1; errorMsg after1])%list) /\
  (exists p2,
      activeProject s2 = Some p2 /\
      Project.id p2 = Project.id p /\
      Project.geometryData p2 = Some data /\
      Project.messages p2 =
        (Project.messages p ++ [userMsg1; errorMsg after1; userMsg2; aiMsg data after2])%list).
Proof.
  intros Hp Hcur Hfail Hok userMsg1 userMsg2 s1 s2.
  destruct (handleSendMessage_activeProject text1 rt1 before1 after1 s p Hp Hcur)
    as [Hcur1 Hp1].
  rewrite Hfail in Hp1. fold s1 in Hcur1, Hp1.
  assert (Hcur1' : str_truthy (currentProjectId s1) = true) by now rewrite Hcur1.
  destruct (handleSendMessage_activeProject text2 rt2 before2 after2 s1 _ Hp1 Hcur1')
    as [_ Hp2].
  rewrite Hok in Hp2. fold s2 in Hp2.
  split; [reflexivity|]. split; [reflexivity|]. split.
  - eexists. split; [exact Hp1|]. repeat split.
  - eexists. split; [exact Hp2|]. cbn. rewrite <- app_assoc. repeat split.
Qed.

(** C6.  When a generation succeeds, the update that stores its scene in a
    project sets that project's [currentStepIndex] to 0, whatever it was. *)
Theorem new_scene_resets_cursor
    (rt : Runtime) (data : GeometryData.t) (k : Closure) (now : Clock) (s : State)
    (i : nat) (p : Project.t) :
  generateGeometry rt = Resolved data ->
  nth_error (projects s) i = Some p ->
  target k = Some (Project.id p) ->
  exists p',
    nth_error (projects (settle k (generateGeometry rt) now s)) i = Some p' /\
    Project.geometryData p' = Some data /\
    Project.currentStepIndex p' = 0.
Proof.
  intros Hok Hp Htarget. rewrite Hok. unfold settle.
  change (projects (setIsLoading false ?x)) with (projects x).
  rewrite nth_error_updateActiveProject, Hp. cbn [option_map].
  apply id_is_true in Htarget. rewrite Htarget.
  eexists. split; [reflexivity|]. split; reflexivity.
Qed.

(** C10, as the code has it.  After a successful generation the reply added
    to the transcript is the model's; its text is "Xong!" when the scene has
    no message or a falsy one (the empty string, [null], [false], [0]), and
    the scene's message otherwise. *)
Theorem reply_text_defaults_to_Xong
    (text : string) (rt : Runtime) (data : GeometryData.t)
    (before after : Clock) (s : State) (p : Project.t) :
  activeProject s = Some p ->
  str_truthy (currentProjectId s) = true ->
  generateGeometry rt = Resolved data ->
  let userMsg :=
    {| ChatMessage.id := toString (forId before);
       ChatMessage.role := user;
       ChatMessage.text := JStr text;
       ChatMessage.timestamp := forTimestamp before |} in
  exists p' reply,
    activeProject (handleSendMessage text rt before after s) = Some p' /\
    Project.messages p' = (Project.messages p ++ [userMsg; reply])%list /\
    ChatMessage.role reply = model /\
    (GeometryData.message data = None \/ GeometryData.message data = Some (JStr "") ->
     ChatMessage.text reply = JStr "Xong!") /\
    (forall m, GeometryData.message data = Some (JStr m) -> m <> "" ->
     ChatMessage.text reply = JStr m) /\
    (forall v, GeometryData.message data = Some v -> truthy v = false ->
     ChatMessage.text reply = JStr "Xong!") /\
    (forall v, GeometryData.message data = Some v -> truthy v = true ->
     ChatMessage.text reply = v).
Proof.
  intros Hp Hcur Hok userMsg.
  destruct (handleSendMessage_activeProject text rt before after s p Hp Hcur)
    as [_ Hp'].
  rewrite Hok in Hp'.
  eexists. exists (aiMsg data after).
  split; [exact Hp'|]. split; [reflexivity|]. split; [reflexivity|]. split.
  - intros [Hm|Hm]; cbn; now rewrite Hm.
  - split; [|split].
    + intros m Hm Hne. cbn. rewrite Hm. cbn.
      apply String.eqb_neq in Hne. now rewrite Hne.
    + intros v Hm Hv. cbn. rewrite Hm. cbn. now rewrite Hv.
    + intros v Hm Hv. cbn. rewrite Hm. cbn. now rewrite Hv.
Qed.

(** C7.  The continuation of a [handleSendMessage] applies the outcome to the
    projects whose id is the [currentProjectId] of the render the call was
    made in.  Whatever the state has become by then, and whichever project is
    active in it, every project with another id is left as it is and the
    active reference is not touched. *)
Theorem outcome_goes_to_issuing_project
    (text : string) (before after : Clock) (s0 s0' : State) (k : Closure)
    (result : Promise GeometryData.t) (s : State) (i : nat) (p : Project.t) :
  send text before s0 = (s0', Some k) ->
  nth_error (projects s) i = Some p ->
  let s' := settle k result after s in
  target k = currentProjectId s0 /\
  currentProjectId s' = currentProjectId s /\
  exists p',
    nth_error (projects s') i = Some p' /\
    (currentProjectId s0 <> Some (Project.id p) -> p' = p) /\
    (currentProjectId s0 = Some (Project.id p) ->
     Project.id p' = Project.id p /\
     Project.messages p' =
       (updatedMessages k ++
        [match result with
         | Resolved data => aiMsg data after
         | Rejected _ => errorMsg after
         end])%list /\
     Project.geometryData p' =
       match result with
       | Resolved data => Some data
       | Rejected _ => Project.geometryData p
       end).
Proof.
  intros Hsend Hp s'. subst s'.
  assert (Hk : target k = currentProjectId s0).
  { unfold send in Hsend.
    destruct (negb (str_truthy (currentProjectId s0))); [discriminate|].
    injection Hsend as _ <-. reflexivity. }
  split; [exact Hk|].
  split; [now destruct result|].
  rewrite <- Hk. unfold settle.
  change (projects (setIsLoading false ?x)) with (projects x).
  destruct result as [data|e];
    rewrite nth_error_updateActiveProject, Hp; cbn [option_map];
    at_project (target k) p.
Qed.

(** *** Deleting and creating projects *)

Lemma filter_other_ids_all (id : string) (l : list Project.t) :
  ~ In id (map Project.id l) ->
  filter (fun p => negb (String.eqb (Project.id p) id)) l = l.
Proof.
  induction l as [|q l IH]; simpl; intro Hnot; [reflexivity|].
  destruct (String.eqb_spec (Project.id q) id) as [Heq|Hne]; simpl.
  - exfalso. apply Hnot. now left.
  - f_equal. apply IH. intro Hin. apply Hnot. now right.
Qed.

Lemma filter_same_id_none (id : string) (l : list Project.t) :
  ~ In id (map Project.id l) ->
  filter (id_is (Some id)) l = [].
Proof.
  induction l as [|q l IH]; simpl; intro Hnot; [reflexivity|].
  destruct (String.eqb_spec (Project.id q) id) as [Heq|Hne].
  - exfalso. apply Hnot. now left.
  - apply IH. intro Hin. apply Hnot. now right.
Qed.

Lemma filter_other_ids_length (id : string) (l : list Project.t) :
  NoDup (map Project.id l) ->
  (List.length l <=
   S (List.length (filter (fun p => negb (String.eqb (Project.id p) id)) l)))%nat.
Proof.
  induction l as [|q l IH]; simpl; intro Hnd; [lia|].
  inversion Hnd as [|x xs Hnot Hnd']; subst.
  destruct (String.eqb_spec (Project.id q) id) as [Heq|Hne]; simpl.
  - subst id. rewrite filter_other_ids_all by exact Hnot. lia.
  - specialize (IH Hnd'). lia.
Qed.

Lemma NoDup_ids_filter (f : Project.t -> bool) (l : list Project.t) :
  NoDup (map Project.id l) -> NoDup (map Project.id (filter f l)).
Proof.
  induction l as [|q l IH]; simpl; intro Hnd; [constructor|].
  inversion Hnd as [|x xs Hnot Hnd']; subst.
  destruct (f q); simpl; [|now apply IH].
  constructor; [|now apply IH].
  intro Hin. apply Hnot. apply in_map_iff in Hin.
  destruct Hin as [r [Hr Hin]]. apply filter_In in Hin.
  apply in_map_iff. exists r. tauto.
Qed.

(** C1, as the code has it.  In a store of distinct ids with more than one
    project, deleting the active project makes the first of the remaining
    projects, in the order of the store, the active one, and it is the only
    one shown active. *)
Theorem deleteProject_active_moves_to_first (id : string) (s : State) :
  currentProjectId s = Some id ->
  NoDup (map Project.id (projects s)) ->
  (1 < List.length (projects s))%nat ->
  let s' := deleteProject id true s in
  exists first rest,
    filter (fun p => negb (String.eqb (Project.id p) id)) (projects s) = first :: rest /\
    projects s' = first :: rest /\
    currentProjectId s' = Some (Project.id first) /\
    activeProject s' = Some first /\
    shownActive s' = [first].
Proof.
  intros Hcur Hnd Hlen s'. subst s'.
  pose proof (filter_other_ids_length id (projects s) Hnd) as Hkeep.
  pose proof (NoDup_ids_filter (fun p => negb (String.eqb (Project.id p) id))
                (projects s) Hnd) as Hnd'.
  unfold deleteProject. rewrite Hcur. cbn [same_id]. rewrite String.eqb_refl.
  destruct (filter (fun p => negb (String.eqb (Project.id p) id)) (projects s))
    as [|first rest] eqn:E; [simpl in Hkeep; lia|].
  exists first, rest. cbn.
  split; [reflexivity|]. split; [reflexivity|]. split; [reflexivity|].
  unfold activeProject, shownActive. cbn. rewrite String.eqb_refl.
  split; [reflexivity|].
  f_equal. apply filter_same_id_none.
  now inversion Hnd'.
Qed.

(** Deleting the active project when no other is left empties the store and
    keeps [currentProjectId] as it was. *)
Lemma deleteProject_none_left (id : string) (s : State) :
  currentProjectId s = Some id ->
  filter (fun p => negb (String.eqb (Project.id p) id)) (projects s) = [] ->
  projects (deleteProject id true s) = [] /\
  currentProjectId (deleteProject id true s) = Some id /\
  activeProject (deleteProject id true s) = None.
Proof.
  intros Hcur Hnone. unfold deleteProject, activeProject.
  rewrite Hnone, Hcur. cbn. rewrite String.eqb_refl. cbn. now rewrite Hcur.
Qed.

(** C8, as the code has it.  [createProject] puts a new project in front of
    the store's sequence; it holds the welcome message alone, with a fresh
    timestamp, has no scene and cursor 0, and is the active project. *)
Theorem createProject_puts_new_project_first
    (nameInput : option string) (now : Clock) (s : State) :
  let s' := createProject nameInput now s in
  exists newProj,
    projects s' = newProj :: projects s /\
    Project.id newProj = toString (forId now) /\
    (forall n, nameInput = Some n -> n <> "" -> Project.name newProj = n) /\
    Project.messages newProj =
      [ {| ChatMessage.id := "welcome";
           ChatMessage.role := model;
           ChatMessage.text := ChatMessage.text DEFAULT_WELCOME_MSG;
           ChatMessage.timestamp := forTimestamp now |} ] /\
    Project.geometryData newProj = None /\
    Project.currentStepIndex newProj = 0 /\
    Project.lastModified newProj = forLastModified now /\
    currentProjectId s' = Some (Project.id newProj) /\
    activeProject s' = Some newProj.
Proof.
  intro s'. subst s'. eexists. split; [reflexivity|].
  split; [reflexivity|]. split.
  - intros n -> Hne. cbn. apply String.eqb_neq in Hne. now rewrite Hne.
  - repeat (split; [reflexivity|]).
    unfold activeProject. cbn. now rewrite String.eqb_refl.
Qed.

(** *** The playback cursor *)

(** C5, as the code has it.  [setCurrentStepIndex n] stores [n] itself in the
    active project and touches neither its scene nor its transcript; the
    cursor the next render reads is [n].  It is [n] clamped to
    [[0, steps.length - 1]] exactly when [0 <= n <= max 0 (steps.length - 1)]:
    when [n] lies in that range already, or is 0 on a scene without steps. *)
Theorem setCurrentStepIndex_stores_index_unclamped
    (n now : Z) (s : State) (p : Project.t) :
  activeProject s = Some p ->
  let s' := setCurrentStepIndex n now s in
  exists p',
    activeProject s' = Some p' /\
    Project.currentStepIndex p' = n /\
    Project.geometryData p' = Project.geometryData p /\
    Project.messages p' = Project.messages p /\
    currentStepIndex s' = n /\
    forall g,
      Project.geometryData p = Some g ->
      (currentStepIndex s' = clamped n (stepsLength g) <->
       0 <= n <= Z.max 0 (stepsLength g - 1)).
Proof.
  intros Hp s'. subst s'.
  assert (Hp' : activeProject (setCurrentStepIndex n now s) =
                Some (stamp now (spread p
                  {| Partial.id := None; Partial.name := None; Partial.subjectId := None;
                     Partial.messages := None; Partial.geometryData := None;
                     Partial.currentStepIndex := Some n; Partial.lastModified := None |}))).
  { unfold setCurrentStepIndex.
    rewrite activeProject_updateActiveProject by reflexivity. now rewrite Hp. }
  assert (Hread : currentStepIndex (setCurrentStepIndex n now s) = n).
  { unfold currentStepIndex. rewrite Hp'. cbn.
    destruct (Z.eqb_spec n 0); congruence. }
  eexists. split; [exact Hp'|].
  repeat (split; [reflexivity|]).
  split; [exact Hread|].
  intros g _. rewrite Hread. unfold clamped. lia.
Qed.

(** *** The normalizer *)

(** C3, as the code has it.  For a document in which each container is a
    sequence or absent, the result has all seven containers as sequences: the
    document's own, or the empty one where it has none.  [type] is "2D" when
    the document has none or a falsy one ([null], [false], [0], the empty
    string); a truthy value the document gives stays as it is, recognized or
    not.  So the result's [type] is "2D" or "3D" exactly when the document's is
    absent, falsy, or one of the two.  [message] and [mathSolution] are passed
    on. *)
Theorem normalize_fills_absent_fields (parsed : json) :
  parsed <> JNull ->
  forallb (fun k => absentOrArray (prop parsed k)) containerNames = true ->
  exists g,
    normalize parsed = Resolved g /\
    (forall k v, In (k, v) (containers g) ->
       isArray v = true /\
       (prop parsed k = None -> v = JArr []) /\
       (forall x, prop parsed k = Some x -> v = x)) /\
    (prop parsed "type" = None -> GeometryData.type g = JStr "2D") /\
    (forall v, prop parsed "type" = Some v ->
       GeometryData.type g = if truthy v then v else JStr "2D") /\
    (is2Dor3D (GeometryData.type g) = true <->
     match prop parsed "type" with
     | None => True
     | Some v => truthy v = false \/ is2Dor3D v = true
     end) /\
    GeometryData.message g = prop parsed "message" /\
    GeometryData.mathSolution g = prop parsed "mathSolution".
Proof.
  intros Hnull Hshape. rewrite forallb_forall in Hshape.
  assert (Hfield : forall k v, In k containerNames ->
            v = js_or (prop parsed k) (JArr []) ->
            isArray v = true /\
            (prop parsed k = None -> v = JArr []) /\
            (forall x, prop parsed k = Some x -> v = x)).
  { intros k v Hk ->. specialize (Hshape k Hk).
    destruct (prop parsed k) as [x|]; cbn in *.
    - destruct x; try discriminate. cbn. repeat split; congruence.
    - repeat split; congruence. }
  exists {|
      GeometryData.points := js_or (prop parsed "points") (JArr []);
      GeometryData.edges := js_or (prop parsed "edges") (JArr []);
      GeometryData.faces := js_or (prop parsed "faces") (JArr []);
      GeometryData.angles := js_or (prop parsed "angles") (JArr []);
      GeometryData.circles := js_or (prop parsed "circles") (JArr []);
      GeometryData.steps := js_or (prop parsed "steps") (JArr []);
      GeometryData.reasoning := js_or (prop parsed "reasoning") (JArr []);
      GeometryData.type := js_or (prop parsed "type") (JStr "2D");
      GeometryData.message := prop parsed "message";
      GeometryData.mathSolution := prop parsed "mathSolution"
    |}.
  split; [now destruct parsed|].
  split.
  { intros k v Hin. cbn in Hin.
    repeat (destruct Hin as [Hin|Hin];
            [injection Hin as <- <-; apply Hfield; [cbn; tauto | reflexivity]|]).
    contradiction. }
  cbn [GeometryData.type GeometryData.message GeometryData.mathSolution].
  split; [now intros ->|].
  split; [now intros v ->|].
  split; [|split; reflexivity].
  destruct (prop parsed "type") as [v|]; cbn; [|tauto].
  destruct (truthy v) eqn:Hv.
  - split; [now right | now intros [|]].
  - split; [now left | reflexivity].
Qed.

(** ** Beyond the spec's claims *)

(** *** The initialising effect *)

Lemma sortByLastModified_head (l : list Project.t) :
  l <> [] ->
  exists q tl before after,
    sortByLastModified l = q :: tl /\
    l = (before ++ q :: after)%list /\
    (forall r, In r before -> Project.lastModified r < Project.lastModified q) /\
    (forall r, In r after -> Project.lastModified r <= Project.lastModified q).
Proof.
  induction l as [|p rest IH]; [congruence|]. intros _.
  destruct rest as [|p' rest'].
  - exists p, [], [], []. cbn. repeat split; intros r [].
  - destruct IH as (q & tl & before & after & Hsort & Hsplit & Hbefore & Hafter);
      [discriminate|].
    change (sortByLastModified (p :: p' :: rest'))
      with (insertRecent p (sortByLastModified (p' :: rest'))).
    rewrite Hsort. cbn [insertRecent].
    destruct (Z.leb_spec (Project.lastModified q) (Project.lastModified p)) as [Hle|Hlt].
    + exists p, (q :: tl), [], (p' :: rest'). repeat split.
      * intros r [].
      * intros r Hr. rewrite Hsplit in Hr. apply in_app_or in Hr.
        destruct Hr as [Hr|[<-|Hr]].
        -- specialize (Hbefore r Hr). lia.
        -- exact Hle.
        -- specialize (Hafter r Hr). lia.
    + exists q, (insertRecent p tl), (p :: before), after. repeat split.
      * rewrite Hsplit. reflexivity.
      * intros r [<-|Hr]; [exact Hlt | now apply Hbefore].
      * exact Hafter.
Qed.

Lemma find_own_id (l before after : list Project.t) (q : Project.t) :
  NoDup (map Project.id l) ->
  l = (before ++ q :: after)%list ->
  find (id_is (Some (Project.id q))) l = Some q.
Proof.
  intros Hnd ->. induction before as [|b before IH]; cbn.
  - now rewrite String.eqb_refl.
  - cbn in Hnd. inversion Hnd as [|x xs Hnot Hnd']; subst.
    destruct (String.eqb_spec (Project.id b) (Project.id q)) as [Heq|_].
    + exfalso. apply Hnot. rewrite Heq, map_app. apply in_or_app. right. now left.
    + now apply IH.
Qed.

Lemma find_some_id (l : list Project.t) (q : Project.t) :
  In q l -> exists p, find (id_is (Some (Project.id q))) l = Some p.
Proof.
  induction l as [|b l IH]; cbn; [intros []|].
  intros [->|Hin].
  - rewrite String.eqb_refl. now eexists.
  - destruct (String.eqb (Project.id b) (Project.id q)); [now eexists | now apply IH].
Qed.

(** On a store that has projects and no active reference, the initialising
    effect leaves the projects as they are and makes active the project
    modified last, the first of them in the list when several were modified
    at that time. *)
Theorem initialize_opens_most_recent (now : Clock) (s : State) :
  projects s <> [] ->
  str_truthy (currentProjectId s) = false ->
  let s' := initialize now s in
  projects s' = projects s /\
  exists before q after,
    projects s = (before ++ q :: after)%list /\
    (forall r, In r before -> Project.lastModified r < Project.lastModified q) /\
    (forall r, In r after -> Project.lastModified r <= Project.lastModified q) /\
    currentProjectId s' = Some (Project.id q) /\
    (NoDup (map Project.id (projects s)) -> activeProject s' = Some q).
Proof.
  intros Hne Hcur s'. subst s'. unfold initialize. rewrite Hcur. cbn [negb].
  destruct (sortByLastModified_head (projects s) Hne)
    as (q & tl & before & after & Hsort & Hsplit & Hbefore & Hafter).
  destruct (Z.eqb_spec (Z.of_nat (List.length (projects s))) 0) as [Hlen|_].
  - destruct (projects s); [congruence | cbn in Hlen; lia].
  - rewrite Hsort. split; [reflexivity|].
    exists before, q, after. repeat split; try assumption.
    intro Hnd. unfold activeProject. cbn.
    now apply (find_own_id _ before after).
Qed.

Lemma find_first {A : Type} (f : A -> bool) (l : list A) (x : A) :
  find f l = Some x ->
  exists before after,
    l = (before ++ x :: after)%list /\ forall r, In r before -> f r = false.
Proof.
  induction l as [|a l IH]; cbn; [discriminate|].
  destruct (f a) eqn:E.
  - intros [= ->]. exists [], l. split; [reflexivity | intros r []].
  - intro H. destruct (IH H) as (before & after & -> & Hbefore).
    exists (a :: before), after. split; [reflexivity|].
    intros r [<-|Hr]; [exact E | now apply Hbefore].
Qed.

(** After the initialising effect has run on a state without an active
    reference, as the component starts with, there is an active project.  On an
    empty store it is the new project "Bài toán mới", the only one.  Otherwise
    the projects are as before and the active project is the first of them that
    has the id of the project modified last: that project itself when the ids
    are distinct. *)
Theorem initialize_activates_a_project (now : Clock) (s : State) :
  str_truthy (currentProjectId s) = false ->
  exists p,
    activeProject (initialize now s) = Some p /\
    (projects s = [] ->
     projects (initialize now s) = [p] /\
     Project.id p = toString (forId now) /\
     Project.name p = "Bài toán mới" /\
     Project.geometryData p = None) /\
    (projects s <> [] ->
     projects (initialize now s) = projects s /\
     exists q,
       In q (projects s) /\
       (forall r, In r (projects s) -> Project.lastModified r <= Project.lastModified q) /\
       Project.id p = Project.id q /\
       (exists before after,
           projects s = (before ++ p :: after)%list /\
           forall r, In r before -> Project.id r <> Project.id q) /\
       (NoDup (map Project.id (projects s)) -> p = q)).
Proof.
  intro Hcur. unfold initialize. rewrite Hcur. cbn [negb].
  destruct (Z.eqb_spec (Z.of_nat (List.length (projects s))) 0) as [Hlen|Hlen].
  - assert (Hempty : projects s = [])
      by (destruct (projects s); [reflexivity | cbn in Hlen; lia]).
    eexists. split; [unfold activeProject; cbn; now rewrite String.eqb_refl|].
    split; [|congruence].
    intros _. cbn. rewrite Hempty. repeat split.
  - assert (Hne : projects s <> []) by (intro E; rewrite E in Hlen; now cbn in Hlen).
    destruct (sortByLastModified_head (projects s) Hne)
      as (q & tl & before & after & Hsort & Hsplit & Hbefore & Hafter).
    rewrite Hsort.
    assert (Hq : In q (projects s)) by (rewrite Hsplit; apply in_or_app; right; now left).
    destruct (find_some_id (projects s) q Hq) as [p Hp].
    exists p. split; [exact Hp|]. split; [congruence|].
    intros _. split; [reflexivity|].
    exists q. split; [exact Hq|]. split.
    { intros r Hr. rewrite Hsplit in Hr. apply in_app_or in Hr.
      destruct Hr as [Hr|[<-|Hr]];
        [specialize (Hbefore r Hr); lia | lia | now apply Hafter]. }
    pose proof (find_some _ _ Hp) as [_ Hid]. cbn in Hid. apply String.eqb_eq in Hid.
    split; [exact Hid|]. split.
    + destruct (find_first _ _ _ Hp) as (b' & a' & Hsplit' & Hfirst).
      exists b', a'. split; [exact Hsplit'|].
      intros r Hr Heq. specialize (Hfirst r Hr). cbn in Hfirst.
      apply String.eqb_neq in Hfirst. contradiction.
    + intro Hnd. rewrite (find_own_id _ before after q Hnd Hsplit) in Hp.
      now injection Hp.
Qed.

(** When the initialising effect finds the projects as an update of the
    active project left them, at a time later than every earlier
    modification, and no active reference (a reload), it makes that project
    the active one again. *)
Theorem initialize_after_update
    (updates : Partial.t) (now : Z) (at_mount : Clock) (s : State) (p : Project.t) :
  activeProject s = Some p ->
  Partial.id updates = None ->
  (forall q, In q (projects s) -> Project.lastModified q < now) ->
  let s1 := updateActiveProject (currentProjectId s) updates now s in
  currentProjectId
    (initialize at_mount
       {| projects := projects s1; currentProjectId := None; isLoading := false |})
  = Some (Project.id p).
Proof.
  intros Hp Hid Hearlier s1.
  pose proof (activeProject_id s p Hp) as Hcur.
  assert (Hin : In p (projects s)) by (apply find_some in Hp; tauto).
  assert (Hne : projects s1 <> []).
  { subst s1. cbn. destruct (projects s); [contradiction | discriminate]. }
  unfold initialize. cbn [projects currentProjectId str_truthy negb].
  destruct (Z.eqb_spec (Z.of_nat (List.length (projects s1))) 0) as [Hlen|_];
    [destruct (projects s1); [congruence | cbn in Hlen; lia]|].
  destruct (sortByLastModified_head (projects s1) Hne)
    as (q & tl & before & after & Hsort & Hsplit & Hbefore & Hafter).
  rewrite Hsort. cbn [setCurrentProjectId currentProjectId]. f_equal.
  set (g := fun r => if id_is (currentProjectId s) r
                     then stamp now (spread r updates) else r).
  assert (Hmax : forall r, In r (projects s1) ->
                           Project.lastModified r <= Project.lastModified q).
  { intros r Hr. rewrite Hsplit in Hr. apply in_app_or in Hr.
    destruct Hr as [Hr|[<-|Hr]];
      [specialize (Hbefore r Hr); lia | lia | now apply Hafter]. }
  assert (Hnow : now <= Project.lastModified q).
  { specialize (Hmax (g p)). subst g. cbn in Hmax.
    replace (id_is (currentProjectId s) p) with true in Hmax
      by (symmetry; now apply id_is_true).
    apply Hmax. subst s1. cbn.
    apply in_map_iff. exists p. split; [|exact Hin].
    replace (id_is (currentProjectId s) p) with true
      by (symmetry; now apply id_is_true).
    reflexivity. }
  assert (Hq : In q (projects s1)) by (rewrite Hsplit; apply in_or_app; right; now left).
  subst s1. cbn in Hq. apply in_map_iff in Hq. destruct Hq as (r & Hr & Hrin).
  destruct (id_is (currentProjectId s) r) eqn:E.
  - subst q. cbn. rewrite Hid. cbn.
    apply id_is_true in E. congruence.
  - subst q. specialize (Hearlier r Hrin). lia.
Qed.

(** *** Deleting *)

Lemma filter_twice {A : Type} (f : A -> bool) (l : list A) :
  filter f (filter f l) = filter f l.
Proof.
  induction l as [|a l IH]; cbn; [reflexivity|].
  destruct (f a) eqn:E; cbn; [rewrite E; now f_equal | exact IH].
Qed.

Lemma find_filter_other_id (cur : option string) (id : string) (l : list Project.t) :
  same_id cur id = false ->
  find (id_is cur) (filter (fun p => negb (String.eqb (Project.id p) id)) l) =
  find (id_is cur) l.
Proof.
  intro Hother. induction l as [|q l IH]; cbn; [reflexivity|].
  destruct (String.eqb_spec (Project.id q) id) as [Heq|Hne]; cbn.
  - replace (id_is cur q) with false; [exact IH|].
    destruct cur as [c|]; cbn in *; [|reflexivity].
    rewrite Heq. symmetry. rewrite String.eqb_sym. exact Hother.
  - destruct (id_is cur q); [reflexivity | exact IH].
Qed.

(** Deleting a project that is not the active one leaves the active reference
    and the active project as they are. *)
Theorem deleteProject_other_keeps_active (id : string) (confirmed : bool) (s : State) :
  same_id (currentProjectId s) id = false ->
  currentProjectId (deleteProject id confirmed s) = currentProjectId s /\
  activeProject (deleteProject id confirmed s) = activeProject s.
Proof.
  intro Hother. unfold deleteProject. destruct confirmed; [|now split].
  rewrite Hother. cbn. split; [reflexivity|].
  unfold activeProject. cbn. now apply find_filter_other_id.
Qed.

Lemma projects_deleteProject (id : string) (s : State) :
  projects (deleteProject id true s) =
  filter (fun p => negb (String.eqb (Project.id p) id)) (projects s).
Proof.
  unfold deleteProject. cbv zeta.
  destruct (same_id (currentProjectId s) id && _); [|reflexivity].
  now destruct (filter _ (projects s)).
Qed.

Lemma deleteProject_settled (id : string) (s : State) :
  filter (fun p => negb (String.eqb (Project.id p) id)) (projects s) = projects s ->
  same_id (currentProjectId s) id && (0 <? Z.of_nat (List.length (projects s))) = false ->
  deleteProject id true s = s.
Proof.
  intros Hfix Hcond. unfold deleteProject. cbv zeta.
  rewrite Hfix, Hcond. now destruct s.
Qed.

(** Deleting the same project a second time changes nothing more. *)
Theorem deleteProject_twice (id : string) (confirmed : bool) (s : State) :
  deleteProject id confirmed (deleteProject id confirmed s) = deleteProject id confirmed s.
Proof.
  destruct confirmed; [|reflexivity].
  apply deleteProject_settled.
  - rewrite projects_deleteProject. apply filter_twice.
  - rewrite projects_deleteProject. unfold deleteProject. cbv zeta.
    destruct (filter (fun p => negb (String.eqb (Project.id p) id)) (projects s))
      as [|first rest] eqn:E.
    + cbn. now rewrite !andb_false_r.
    + assert (Hin : In first (first :: rest)) by now left.
      rewrite <- E in Hin. apply filter_In in Hin. destruct Hin as [_ Hne].
      apply negb_true_iff in Hne.
      destruct (same_id (currentProjectId s) id) eqn:Hcur; cbn.
      * now rewrite Hne.
      * now rewrite Hcur.
Qed.

(** Deleting an id that no project has, and that is not the active reference,
    changes nothing. *)
Theorem deleteProject_absent (id : string) (confirmed : bool) (s : State) :
  existsb (fun p => String.eqb (Project.id p) id) (projects s) = false ->
  same_id (currentProjectId s) id = false ->
  deleteProject id confirmed s = s.
Proof.
  intros Habsent Hother. destruct confirmed; [|reflexivity].
  unfold deleteProject. rewrite Hother. cbn.
  replace (filter (fun p => negb (String.eqb (Project.id p) id)) (projects s))
    with (projects s); [now destruct s|].
  induction (projects s) as [|q l IH]; cbn in *; [reflexivity|].
  apply orb_false_iff in Habsent. destruct Habsent as [Hq Hl].
  rewrite Hq. cbn. f_equal. now apply IH.
Qed.

(** *** Updates that find no project *)

Lemma updateActiveProject_none (cur : option string) (updates : Partial.t) (now : Z)
    (s : State) :
  find (id_is cur) (projects s) = None ->
  updateActiveProject cur updates now s = s.
Proof.
  intro Hnone. unfold updateActiveProject, setProjects.
  replace (map _ (projects s)) with (projects s); [now destruct s|].
  rewrite <- (map_id (projects s)) at 1. apply map_ext_in.
  intros p Hin. now rewrite (find_none _ _ Hnone p Hin).
Qed.

(** When no project answers to the active reference, a message that is sent
    reaches no project: the projects and the active reference are as before,
    whatever the service does. *)
Theorem handleSendMessage_without_project
    (text : string) (rt : Runtime) (before after : Clock) (s : State) :
  activeProject s = None ->
  let s' := handleSendMessage text rt before after s in
  projects s' = projects s /\ currentProjectId s' = currentProjectId s.
Proof.
  intros Hnone s'. subst s'. unfold handleSendMessage, send.
  destruct (negb (str_truthy (currentProjectId s))); [now split|].
  unfold settle. cbn [target updatedMessages].
  rewrite (updateActiveProject_none _ _ _ s Hnone).
  destruct (generateGeometry rt);
    rewrite updateActiveProject_none by exact Hnone; now split.
Qed.

(** An answer that arrives after the project it was asked from has been
    deleted changes no project. *)
Theorem settle_after_delete
    (k : Closure) (result : Promise GeometryData.t) (now : Clock) (id : string) (s : State) :
  target k = Some id ->
  let s' := deleteProject id true s in
  projects (settle k result now s') = projects s' /\
  currentProjectId (settle k result now s') = currentProjectId s'.
Proof.
  intros Htarget s'.
  assert (Hnone : find (id_is (target k)) (projects s') = None).
  { subst s'. rewrite projects_deleteProject, Htarget.
    induction (projects s) as [|q l IH]; cbn; [reflexivity|].
    destruct (String.eqb (Project.id q) id) eqn:E; cbn; [exact IH|].
    now rewrite E. }
  unfold settle.
  destruct result; rewrite updateActiveProject_none by exact Hnone; now split.
Qed.

(** *** What a message leaves alone *)

Lemma projects_setIsLoading (b : bool) (s : State) :
  projects (setIsLoading b s) = projects s.
Proof. reflexivity. Qed.

Lemma map_updateActiveProject {A : Type} (f : Project.t -> A)
    (cur : option string) (updates : Partial.t) (now : Z) (s : State) :
  (forall p, f (stamp now (spread p updates)) = f p) ->
  map f (projects (updateActiveProject cur updates now s)) = map f (projects s).
Proof.
  intro Hf. unfold updateActiveProject, setProjects. cbn. rewrite map_map.
  apply map_ext. intro p. now destruct (id_is cur p).
Qed.

(** Sending a message, answered or failed, never changes the active
    reference, nor the ids, names or order of the projects, and leaves every
    project that is not the active one untouched. *)
Theorem handleSendMessage_frame
    (text : string) (rt : Runtime) (before after : Clock) (s : State) :
  let s' := handleSendMessage text rt before after s in
  currentProjectId s' = currentProjectId s /\
  map Project.id (projects s') = map Project.id (projects s) /\
  map Project.name (projects s') = map Project.name (projects s) /\
  forall i p,
    nth_error (projects s) i = Some p ->
    currentProjectId s <> Some (Project.id p) ->
    nth_error (projects s') i = Some p.
Proof.
  intro s'. subst s'. unfold handleSendMessage, send.
  destruct (negb (str_truthy (currentProjectId s))); [now repeat split|].
  unfold settle. cbn [target updatedMessages].
  destruct (generateGeometry rt) as [data|e];
    (split; [reflexivity|]; split; [|split]);
    rewrite projects_setIsLoading;
    try (rewrite map_updateActiveProject, projects_setIsLoading,
           map_updateActiveProject by reflexivity; reflexivity);
    (intros i p Hp Hne; apply id_is_false in Hne;
     rewrite nth_error_updateActiveProject, projects_setIsLoading,
       nth_error_updateActiveProject, Hp; cbn [option_map];
     rewrite Hne; cbn [option_map]; now rewrite Hne).
Qed.

(** An edit made on the canvas replaces the scene of the active project and
    keeps its cursor and its transcript, so the walkthrough stays where it
    was. *)
Theorem onDataUpdate_keeps_cursor
    (newData : GeometryData.t) (now : Z) (s : State) (p : Project.t) :
  activeProject s = Some p ->
  let s' := onDataUpdate newData now s in
  geometryData s' = Some newData /\
  currentStepIndex s' = currentStepIndex s /\
  messages s' = messages s /\
  exists p',
    activeProject s' = Some p' /\
    Project.currentStepIndex p' = Project.currentStepIndex p /\
    Project.messages p' = Project.messages p /\
    Project.lastModified p' = now.
Proof.
  intros Hp s'. subst s'.
  assert (Hp' : activeProject (onDataUpdate newData now s) =
                Some (stamp now (spread p
                  {| Partial.id := None; Partial.name := None; Partial.subjectId := None;
                     Partial.messages := None;
                     Partial.geometryData := Some (Some newData);
                     Partial.currentStepIndex := None; Partial.lastModified := None |}))).
  { unfold onDataUpdate.
    rewrite activeProject_updateActiveProject by reflexivity. now rewrite Hp. }
  unfold geometryData, currentStepIndex, messages. rewrite Hp', Hp. cbn.
  repeat split. eexists. repeat split.
Qed.

(** *** Two messages in flight

    [handleSendMessage] itself does not wait for an earlier call; only the
    panel's disabled input does. *)

(** When a second message is sent from a project before the first is
    answered, the answer that arrives last decides the transcript: it is the
    transcript its own call saw, the user's message and the reply.  If the
    second answer arrives last, the first reply is not in it; if the first
    arrives last, the second message and its reply are not. *)
Theorem overlapping_messages_last_answer_wins
    (text1 text2 : string) (before1 before2 after1 after2 : Clock)
    (result1 result2 : Promise GeometryData.t) (s : State) (p : Project.t) :
  activeProject s = Some p ->
  str_truthy (currentProjectId s) = true ->
  let userMsg1 :=
    {| ChatMessage.id := toString (forId before1);
       ChatMessage.role := user;
       ChatMessage.text := JStr text1;
       ChatMessage.timestamp := forTimestamp before1 |} in
  let userMsg2 :=
    {| ChatMessage.id := toString (forId before2);
       ChatMessage.role := user;
       ChatMessage.text := JStr text2;
       ChatMessage.timestamp := forTimestamp before2 |} in
  let reply result now :=
    match result with
    | Resolved data => aiMsg data now
    | Rejected _ => errorMsg now
    end in
  exists s1 k1 s2 k2,
    send text1 before1 s = (s1, Some k1) /\
    send text2 before2 s1 = (s2, Some k2) /\
    (exists p',
        activeProject (settle k2 result2 after2 (settle k1 result1 after1 s2)) = Some p' /\
        Project.messages p' =
          (Project.messages p ++ [userMsg1; userMsg2; reply result2 after2])%list) /\
    (exists p',
        activeProject (settle k1 result1 after1 (settle k2 result2 after2 s2)) = Some p' /\
        Project.messages p' =
          (Project.messages p ++ [userMsg1; reply result1 after1])%list).
Proof.
  intros Hp Hcur userMsg1 userMsg2 reply.
  assert (Hsend : forall text now s0 p0,
            activeProject s0 = Some p0 ->
            str_truthy (currentProjectId s0) = true ->
            exists s0' k0,
              send text now s0 = (s0', Some k0) /\
              target k0 = currentProjectId s0 /\
              currentProjectId s0' = currentProjectId s0 /\
              updatedMessages k0 =
                (Project.messages p0 ++
                 [{| ChatMessage.id := toString (forId now);
                     ChatMessage.role := user;
                     ChatMessage.text := JStr text;
                     ChatMessage.timestamp := forTimestamp now |}])%list /\
              activeProject s0' =
                Some (stamp (forLastModified now)
                        (spread p0
                           {| Partial.id := None; Partial.name := None;
                              Partial.subjectId := None;
                              Partial.messages := Some (updatedMessages k0);
                              Partial.geometryData := None;
                              Partial.currentStepIndex := None;
                              Partial.lastModified := None |}))).
  { intros text now s0 p0 Hp0 Hcur0. unfold send. rewrite Hcur0. cbn [negb].
    unfold messages. rewrite Hp0.
    eexists. eexists. split; [reflexivity|]. cbn [target updatedMessages].
    repeat (split; [reflexivity|]).
    change (activeProject (setIsLoading true ?x)) with (activeProject x).
    rewrite activeProject_updateActiveProject by reflexivity. now rewrite Hp0. }
  assert (Hsettle : forall k result now s0 p0,
            activeProject s0 = Some p0 ->
            target k = currentProjectId s0 ->
            currentProjectId (settle k result now s0) = currentProjectId s0 /\
            exists p0',
              activeProject (settle k result now s0) = Some p0' /\
              Project.messages p0' = (updatedMessages k ++ [reply result now])%list).
  { intros k result now s0 p0 Hp0 Hk. unfold settle.
    split; [now destruct result|].
    change (activeProject (setIsLoading false ?x)) with (activeProject x).
    rewrite Hk.
    destruct result;
      rewrite activeProject_updateActiveProject by reflexivity;
      rewrite Hp0; eexists; split; reflexivity. }
  destruct (Hsend text1 before1 s p Hp Hcur) as (s1 & k1 & H1 & Hk1 & Hc1 & Hm1 & Hp1).
  assert (Hcur1 : str_truthy (currentProjectId s1) = true) by now rewrite Hc1.
  destruct (Hsend text2 before2 s1 _ Hp1 Hcur1) as (s2 & k2 & H2 & Hk2 & Hc2 & Hm2 & Hp2).
  exists s1, k1, s2, k2. split; [exact H1|]. split; [exact H2|].
  assert (Hk1' : target k1 = currentProjectId s2) by congruence.
  assert (Hk2' : target k2 = currentProjectId s2) by congruence.
  split.
  - destruct (Hsettle k1 result1 after1 s2 _ Hp2 Hk1') as (Hc & q & Hq & _).
    assert (Hk2'' : target k2 = currentProjectId (settle k1 result1 after1 s2))
      by congruence.
    destruct (Hsettle k2 result2 after2 _ q Hq Hk2'') as (_ & q' & Hq' & Hm').
    exists q'. split; [exact Hq'|].
    rewrite Hm', Hm2. cbn. rewrite Hm1, <- !app_assoc. reflexivity.
  - destruct (Hsettle k2 result2 after2 s2 _ Hp2 Hk2') as (Hc & q & Hq & _).
    assert (Hk1'' : target k1 = currentProjectId (settle k2 result2 after2 s2))
      by congruence.
    destruct (Hsettle k1 result1 after1 _ q Hq Hk1'') as (_ & q' & Hq' & Hm').
    exists q'. split; [exact Hq'|].
    rewrite Hm', Hm1, <- app_assoc. reflexivity.
Qed.

(** *** What holds in every state the page gets into *)

Lemma toString_inj (a b : Z) : toString a = toString b -> a = b.
Proof.
  unfold toString. intro H. apply DecimalZ.to_int_inj.
  assert (Hnil : forall z, Z.to_int z <> Decimal.Pos Decimal.Nil /\
                           Z.to_int z <> Decimal.Neg Decimal.Nil).
  { intros [|q|q]; cbn; split; try discriminate;
      intros [= E]; now apply (DecimalPos.Unsigned.to_uint_nonnil q). }
  assert (E : Some (Z.to_int a) = Some (Z.to_int b)).
  { rewrite <- (NilZero.isi (Z.to_int a)), <- (NilZero.isi (Z.to_int b));
      try apply Hnil. now rewrite H. }
  now injection E.
Qed.

Lemma send_keeps (text : string) (now : Clock) (s : State) :
  currentProjectId (fst (send text now s)) = currentProjectId s /\
  map Project.id (projects (fst (send text now s))) = map Project.id (projects s).
Proof.
  unfold send. destruct (negb (str_truthy (currentProjectId s))); [now split|].
  cbn [fst]. split; [reflexivity|].
  now rewrite projects_setIsLoading, map_updateActiveProject by reflexivity.
Qed.

Lemma settle_keeps (k : Closure) (result : Promise GeometryData.t) (now : Clock) (s : State) :
  currentProjectId (settle k result now s) = currentProjectId s /\
  map Project.id (projects (settle k result now s)) = map Project.id (projects s).
Proof.
  unfold settle. destruct result; (split; [reflexivity|]);
    now rewrite projects_setIsLoading, map_updateActiveProject by reflexivity.
Qed.

Lemma state_after_send (text : string) (now : Clock) (pg : Page) :
  state (handle (Send text now) pg) = fst (send text now (state pg)).
Proof.
  cbn [handle]. now destruct (send text now (state pg)) as [s' [k|]].
Qed.

(** The ids of a reachable page come from distinct readings of the clock,
    none later than the last creation. *)
Lemma reachable_ids (last : Z) (pg : Page) :
  reachable last pg ->
  NoDup (map Project.id (projects (state pg))) /\
  Forall (fun id => exists t, id = toString t /\ t <= last)
    (map Project.id (projects (state pg))).
Proof.
  assert (Hcreate : forall nameInput now t s0,
            NoDup (map Project.id (projects s0)) ->
            Forall (fun id => exists t', id = toString t' /\ t' <= t)
              (map Project.id (projects s0)) ->
            t < forId now ->
            NoDup (map Project.id (projects (createProject nameInput now s0))) /\
            Forall (fun id => exists t', id = toString t' /\ t' <= forId now)
              (map Project.id (projects (createProject nameInput now s0)))).
  { intros nameInput now t s0 Hnd Hall Hlt. cbn. split.
    - constructor; [|exact Hnd].
      intro Hin. rewrite Forall_forall in Hall.
      destruct (Hall _ Hin) as (t' & Heq & Hle).
      apply toString_inj in Heq. lia.
    - constructor; [exists (forId now); split; [reflexivity | lia]|].
      eapply Forall_impl; [|exact Hall].
      intros id (t' & -> & Hle). exists t'. split; [reflexivity | lia]. }
  induction 1 as [t|last pg e Hreach [Hnd Hall] Hallowed].
  - split; constructor.
  - destruct e as [now|now|id|id confirmed|text now|n rt now|idx now|newData now];
      cbn [lastCreation allowed] in *.
    + apply Z.ltb_lt in Hallowed. cbn. unfold initialize.
      destruct (Z.of_nat (List.length (projects (state pg))) =? 0);
        [now apply (Hcreate _ _ last)|].
      assert (Hkeep : NoDup (map Project.id (projects (state pg))) /\
                Forall (fun id => exists t, id = toString t /\ t <= forId now)
                  (map Project.id (projects (state pg)))).
      { split; [exact Hnd|]. eapply Forall_impl; [|exact Hall].
        intros id (t' & -> & Hle). exists t'. split; [reflexivity | lia]. }
      destruct (negb (str_truthy (currentProjectId (state pg)))); [|exact Hkeep].
      now destruct (sortByLastModified (projects (state pg))).
    + apply Z.ltb_lt in Hallowed. now apply (Hcreate _ _ last).
    + now split.
    + destruct confirmed; [|now split].
      cbn [handle onState state]. rewrite projects_deleteProject.
      split; [now apply NoDup_ids_filter|].
      rewrite Forall_forall in *. intros i Hin. apply Hall.
      apply in_map_iff in Hin. destruct Hin as (p & <- & Hin).
      apply filter_In in Hin. apply in_map. tauto.
    + rewrite state_after_send.
      destruct (send_keeps text now (state pg)) as [_ ->]. now split.
    + cbn [handle]. destruct (nth_error (inFlight pg) n) as [k|]; [|now split].
      cbn [state].
      destruct (settle_keeps k (generateGeometry rt) now (state pg)) as [_ ->].
      now split.
    + cbn [handle onState state]. unfold setCurrentStepIndex.
      rewrite map_updateActiveProject by reflexivity. now split.
    + cbn [handle onState state]. unfold onDataUpdate.
      rewrite map_updateActiveProject by reflexivity. now split.
Qed.

(** On every page reached from an empty store, by whatever the user does and
    whenever the answers arrive, no two projects have the same id, as long as
    the clock has moved on between two creations. *)
Theorem reachable_ids_distinct (last : Z) (pg : Page) :
  reachable last pg -> NoDup (map Project.id (projects (state pg))).
Proof.
  intro Hreach. pose proof (reachable_ids last pg Hreach) as Hids.
  destruct Hids as [Hnd _]. exact Hnd.
Qed.

Lemma active_iff_id_listed (s : State) :
  (exists p, activeProject s = Some p) <->
  (exists c, currentProjectId s = Some c /\ In c (map Project.id (projects s))).
Proof.
  unfold activeProject. split.
  - intros [p Hp]. apply find_some in Hp. destruct Hp as [Hin Hid].
    apply id_is_true in Hid. exists (Project.id p). split; [exact Hid|].
    now apply in_map.
  - intros (c & -> & Hin). apply in_map_iff in Hin. destruct Hin as (q & <- & Hin).
    now apply find_some_id.
Qed.

Lemma active_kept (s s' : State) :
  currentProjectId s' = currentProjectId s ->
  map Project.id (projects s') = map Project.id (projects s) ->
  (projects s = [] \/ exists p, activeProject s = Some p) ->
  (projects s' = [] \/ exists p, activeProject s' = Some p).
Proof.
  intros Hcur Hids [Hempty|Hactive].
  - left. apply map_eq_nil with (f := Project.id). now rewrite Hids, Hempty.
  - right. apply active_iff_id_listed. rewrite Hcur, Hids.
    now apply active_iff_id_listed.
Qed.

(** On every page reached from an empty store, the active reference is the id
    of a project unless the store is empty. *)
Theorem reachable_active_unless_empty (last : Z) (pg : Page) :
  reachable last pg ->
  projects (state pg) = [] \/ exists p, activeProject (state pg) = Some p.
Proof.
  assert (Hcreate : forall nameInput now s0,
            exists p, activeProject (createProject nameInput now s0) = Some p).
  { intros. unfold activeProject. cbn. rewrite String.eqb_refl. now eexists. }
  induction 1 as [t|last pg e Hreach IH Hallowed]; [now left|].
  destruct e as [now|now|id|id confirmed|text now|n rt now|idx now|newData now];
    cbn [allowed] in *.
  - cbn [handle onState state]. unfold initialize.
    destruct (Z.eqb_spec (Z.of_nat (List.length (projects (state pg)))) 0) as [_|Hlen];
      [right; apply Hcreate|].
    destruct (negb (str_truthy (currentProjectId (state pg)))); [|exact IH].
    assert (Hne : projects (state pg) <> [])
      by (intro E; rewrite E in Hlen; now cbn in Hlen).
    destruct (sortByLastModified_head (projects (state pg)) Hne)
      as (q & tl & b & a & Hsort & Hsplit & _).
    rewrite Hsort. right. unfold activeProject. cbn.
    apply find_some_id. rewrite Hsplit. apply in_or_app. right. now left.
  - right. apply Hcreate.
  - right. apply active_iff_id_listed. exists id. split; [reflexivity|].
    apply existsb_exists in Hallowed. destruct Hallowed as (p & Hin & Heq).
    apply String.eqb_eq in Heq. subst id. now apply in_map.
  - cbn [handle onState state]. destruct confirmed; [|exact IH].
    destruct (same_id (currentProjectId (state pg)) id) eqn:Hcur.
    + unfold deleteProject. cbv zeta. rewrite Hcur.
      destruct (filter _ (projects (state pg))) as [|first rest]; [now left|].
      right. unfold activeProject. cbn. rewrite String.eqb_refl. now eexists.
    + destruct IH as [Hempty|Hactive].
      * left. rewrite projects_deleteProject, Hempty. reflexivity.
      * right. unfold deleteProject. cbv zeta. rewrite Hcur. cbn.
        unfold activeProject in *. cbn. now rewrite find_filter_other_id.
  - rewrite state_after_send.
    apply (active_kept (state pg)); [apply send_keeps | apply send_keeps | exact IH].
  - cbn [handle]. destruct (nth_error (inFlight pg) n) as [k|]; [|exact IH].
    cbn [state].
    apply (active_kept (state pg)); [apply settle_keeps | apply settle_keeps | exact IH].
  - apply (active_kept (state pg)); [reflexivity | | exact IH].
    cbn [handle onState state]. unfold setCurrentStepIndex.
    now rewrite map_updateActiveProject by reflexivity.
  - apply (active_kept (state pg)); [reflexivity | | exact IH].
    cbn [handle onState state]. unfold onDataUpdate.
    now rewrite map_updateActiveProject by reflexivity.
Qed.

Lemma messages_updateActiveProject
    (cur : option string) (updates : Partial.t) (now : Z) (s : State) (p' : Project.t) :
  In p' (projects (updateActiveProject cur updates now s)) ->
  exists p,
    In p (projects s) /\
    Project.messages p' = overridden (Partial.messages updates) (Project.messages p) \/
    In p (projects s) /\ Project.messages p' = Project.messages p.
Proof.
  intro Hin. apply in_map_iff in Hin. destruct Hin as (p & <- & Hin).
  exists p. destruct (id_is cur p); [left | right]; now split.
Qed.

Lemma in_without_nth {A : Type} (x : A) (n : nat) (l : list A) :
  In x (firstn n l ++ skipn (S n) l) -> In x l.
Proof.
  revert l. induction n as [|n IH]; intros [|a l] Hin; cbn in Hin; try contradiction.
  - now right.
  - destruct Hin as [->|Hin]; [now left | right; now apply IH].
Qed.

(** On every page reached from an empty store, the transcript of every
    project begins with the welcome message, so it is never empty, however the
    answers of the service interleave with what the user does. *)
Theorem reachable_transcripts_begin_with_welcome (last : Z) (pg : Page) :
  reachable last pg ->
  forall p, In p (projects (state pg)) ->
  exists at_time rest,
    Project.messages p =
    {| ChatMessage.id := "welcome";
       ChatMessage.role := model;
       ChatMessage.text := ChatMessage.text DEFAULT_WELCOME_MSG;
       ChatMessage.timestamp := at_time |} :: rest.
Proof.
  intro Hreach.
  set (welcomed := fun l : list ChatMessage.t =>
         exists at_time rest,
           l = {| ChatMessage.id := "welcome"; ChatMessage.role := model;
                  ChatMessage.text := ChatMessage.text DEFAULT_WELCOME_MSG;
                  ChatMessage.timestamp := at_time |} :: rest).
  enough (Hboth : (forall p, In p (projects (state pg)) -> welcomed (Project.messages p)) /\
                  (forall k, In k (inFlight pg) -> welcomed (updatedMessages k)))
    by exact (proj1 Hboth).
  assert (Happ : forall l tail, welcomed l -> welcomed (l ++ tail)%list).
  { intros l tail (at_time & rest & ->). now exists at_time, (rest ++ tail)%list. }
  assert (Hcreate : forall nameInput now (s0 : State),
            (forall p, In p (projects s0) -> welcomed (Project.messages p)) ->
            forall p, In p (projects (createProject nameInput now s0)) ->
            welcomed (Project.messages p)).
  { intros nameInput now s0 H0 p [<-|Hin]; [|now apply H0].
    now exists (forTimestamp now), []. }
  assert (Hupdate : forall cur updates now (s0 : State),
            (forall p, In p (projects s0) -> welcomed (Project.messages p)) ->
            (forall l, Partial.messages updates = Some l -> welcomed l) ->
            forall p, In p (projects (updateActiveProject cur updates now s0)) ->
            welcomed (Project.messages p)).
  { intros cur updates now s0 H0 Hupd p' Hin.
    apply messages_updateActiveProject in Hin.
    destruct Hin as (p & [[Hin ->]|[Hin ->]]); [|now apply H0].
    destruct (Partial.messages updates) as [l|] eqn:E; cbn;
      [now apply Hupd | now apply H0]. }
  induction Hreach as [t|last pg e Hreach [IHp IHk] Hallowed];
    [split; [intros p [] | intros k []]|].
  destruct e as [now|now|id|id confirmed|text now|n rt now|idx now|newData now];
    cbn [handle onState state inFlight].
  - split; [|exact IHk]. unfold initialize.
    destruct (Z.of_nat (List.length (projects (state pg))) =? 0); [now apply Hcreate|].
    destruct (negb (str_truthy (currentProjectId (state pg)))); [|exact IHp].
    now destruct (sortByLastModified (projects (state pg))).
  - split; [now apply Hcreate | exact IHk].
  - split; [exact IHp | exact IHk].
  - split; [|exact IHk]. destruct confirmed; [|exact IHp].
    intros p Hin. rewrite projects_deleteProject in Hin.
    apply filter_In in Hin. now apply IHp.
  - assert (Hseen : welcomed (messages (state pg))).
    { unfold messages. destruct (activeProject (state pg)) as [p0|] eqn:E.
      - apply find_some in E. now apply IHp.
      - now exists loadTime, []. }
    unfold send. destruct (negb (str_truthy (currentProjectId (state pg))));
      [now split|].
    cbn [state inFlight]. split.
    + rewrite projects_setIsLoading. apply Hupdate; [exact IHp|].
      intros l [= <-]. now apply Happ.
    + intros k [<-|Hin]; [now apply Happ | now apply IHk].
  - destruct (nth_error (inFlight pg) n) as [k|] eqn:Ek; [|now split].
    cbn [state inFlight]. split.
    + assert (Hk : welcomed (updatedMessages k))
        by (apply IHk; eapply nth_error_In; exact Ek).
      unfold settle. rewrite projects_setIsLoading.
      destruct (generateGeometry rt);
        (apply Hupdate; [exact IHp|]); intros l [= <-]; now apply Happ.
    + intros k' Hin. apply IHk. now apply in_without_nth in Hin.
  - split; [|exact IHk]. unfold setCurrentStepIndex.
    apply Hupdate; [exact IHp | discriminate].
  - split; [|exact IHk]. unfold onDataUpdate.
    apply Hupdate; [exact IHp | discriminate].
Qed.

(** *** Creating and deleting again *)

(** Creating a project and deleting it again gives back the list of projects
    but not the active reference: the first project of the list is the active
    one afterwards, whichever was before, and on an empty list the reference
    is the id of the project that is gone. *)
Theorem create_then_delete (nameInput : option string) (now : Clock) (s : State) :
  existsb (fun p => String.eqb (Project.id p) (toString (forId now))) (projects s) = false ->
  let s' := deleteProject (toString (forId now)) true (createProject nameInput now s) in
  projects s' = projects s /\
  currentProjectId s' =
    match projects s with
    | first :: _ => Some (Project.id first)
    | [] => Some (toString (forId now))
    end.
Proof.
  intros Hfresh s'. subst s'.
  assert (Hfilter : filter (fun p => negb (String.eqb (Project.id p) (toString (forId now))))
                      (projects s) = projects s).
  { induction (projects s) as [|q l IH]; cbn in *; [reflexivity|].
    apply orb_false_iff in Hfresh. destruct Hfresh as [Hq Hl].
    rewrite Hq. cbn. f_equal. now apply IH. }
  unfold deleteProject. cbv zeta. cbn [createProject setCurrentProjectId setProjects
    projects currentProjectId same_id Project.id filter].
  rewrite String.eqb_refl. cbn [negb]. rewrite Hfilter.
  now destruct (projects s).
Qed.

(** *** Two projects in one millisecond *)

(** Two projects created at the same reading of the clock have the same id:
    both are shown as the active one, and deleting it removes both. *)
Theorem createProject_same_reading_shares_id
    (name1 name2 : option string) (now1 now2 : Clock) (s : State) :
  forId now1 = forId now2 ->
  let s2 := createProject name2 now2 (createProject name1 now1 s) in
  (exists p2 p1 others,
      projects s2 = p2 :: p1 :: projects s /\
      Project.id p1 = Project.id p2 /\
      shownActive s2 = p2 :: p1 :: others) /\
  projects (deleteProject (toString (forId now2)) true s2) =
    filter (fun p => negb (String.eqb (Project.id p) (toString (forId now2)))) (projects s).
Proof.
  intros Hsame s2. subst s2. split.
  - eexists. eexists. eexists. split; [reflexivity|]. split.
    + cbn. now rewrite Hsame.
    + unfold shownActive. cbn. rewrite Hsame, String.eqb_refl. reflexivity.
  - rewrite projects_deleteProject. cbn. rewrite Hsame, String.eqb_refl. reflexivity.
Qed.

(** *** The outcome of a generation *)

(** A generation succeeds exactly when there is a credential, the service
    answers with a text that is not empty, the text parses, and what it parses
    to is not [null]; the scene is then the normalized document. *)
Theorem generateGeometry_resolves_iff (rt : Runtime) (g : GeometryData.t) :
  generateGeometry rt = Resolved g <->
  str_truthy (API_KEY rt) = true /\
  exists text parsed,
    generateContent rt = ServiceResponds (Some text) /\
    text <> "" /\
    JSON_parse rt text = Some parsed /\
    parsed <> JNull /\
    normalize parsed = Resolved g.
Proof.
  unfold generateGeometry. split.
  - destruct (str_truthy (API_KEY rt)); cbn [negb]; [|discriminate].
    destruct (generateContent rt) as [|[text|]]; try discriminate.
    destruct (String.eqb_spec text "") as [|Hne]; [discriminate|].
    destruct (JSON_parse rt text) as [parsed|] eqn:Hparse; [|discriminate].
    intro Hnorm. split; [reflexivity|]. exists text, parsed.
    repeat split; try assumption. intros ->. discriminate.
  - intros (-> & text & parsed & -> & Hne & Hparse & _ & Hnorm). cbn [negb].
    apply String.eqb_neq in Hne. now rewrite Hne, Hparse.
Qed.

(** Each way a generation fails has its own cause, tried in this order: no
    credential; the service rejects; no text in the answer; a text that does
    not parse; a text that parses to [null]. *)
Theorem generateGeometry_rejected_iff (rt : Runtime) (e : Error) :
  generateGeometry rt = Rejected e <->
  match e with
  | ApiKeyMissing => str_truthy (API_KEY rt) = false
  | ServiceError =>
      str_truthy (API_KEY rt) = true /\ generateContent rt = ServiceRejects
  | NoResponse =>
      str_truthy (API_KEY rt) = true /\
      (generateContent rt = ServiceResponds None \/
       generateContent rt = ServiceResponds (Some ""))
  | SyntaxError =>
      str_truthy (API_KEY rt) = true /\
      exists text,
        generateContent rt = ServiceResponds (Some text) /\ text <> "" /\
        JSON_parse rt text = None
  | TypeError =>
      str_truthy (API_KEY rt) = true /\
      exists text,
        generateContent rt = ServiceResponds (Some text) /\ text <> "" /\
        JSON_parse rt text = Some JNull
  end.
Proof.
  unfold generateGeometry. split.
  - destruct (str_truthy (API_KEY rt)); cbn [negb]; [|now intros [= <-]].
    destruct (generateContent rt) as [|[text|]];
      [now intros [= <-] | | intros [= <-]; split; [reflexivity | now left]].
    destruct (String.eqb_spec text "") as [->|Hne];
      [intros [= <-]; split; [reflexivity | now right]|].
    destruct (JSON_parse rt text) as [parsed|] eqn:Hparse.
    + destruct parsed; try discriminate.
      intros [= <-]. split; [reflexivity|]. now exists text.
    + intros [= <-]. split; [reflexivity|]. now exists text.
  - destruct e.
    + now intros ->.
    + now intros [-> ->].
    + now intros [-> [-> | ->]].
    + intros (-> & text & -> & Hne & Hparse). cbn [negb].
      apply String.eqb_neq in Hne. now rewrite Hne, Hparse.
    + intros (-> & text & -> & Hne & Hparse). cbn [negb].
      apply String.eqb_neq in Hne. now rewrite Hne, Hparse.
Qed.

(** *** The floating assistant *)

(** While it is dragged the bubble stays at least 10 pixels from the left and
    top edges, and, on a window wide and high enough for that, within the
    margin kept at the right and bottom edges (70 pixels, or 360 and 550 with
    the chat open). *)
Theorem handleDragMove_stays_on_screen (w : Window) (e : DragEvent) (b b' : Bubble) :
  isDragging b = true ->
  handleDragMove w e b = Some b' ->
  let right := innerWidth w - (if isChatOpen b then 360 else 70) in
  let bottom := innerHeight w - (if isChatOpen b then 550 else 70) in
  10 <= Pos.x (bubblePos b') /\
  10 <= Pos.y (bubblePos b') /\
  (10 <= right -> Pos.x (bubblePos b') <= right) /\
  (10 <= bottom -> Pos.y (bubblePos b') <= bottom).
Proof.
  intros Hdrag Hmove right bottom. unfold handleDragMove in Hmove.
  rewrite Hdrag in Hmove. cbn [negb] in Hmove.
  destruct (client e) as [[clientX clientY]|]; [|discriminate].
  injection Hmove as <-. cbn. subst right bottom. lia.
Qed.

(** A drag moves the bubble by as much as the pointer has moved since the drag
    began, when that place is within the bounds. *)
Theorem drag_follows_pointer
    (w : Window) (down move : DragEvent) (b b0 b1 : Bubble) (x0 y0 x1 y1 : Z) :
  client down = Some (x0, y0) ->
  client move = Some (x1, y1) ->
  handleDragStart down b = Some b0 ->
  handleDragMove w move b0 = Some b1 ->
  let newX := Pos.x (bubblePos b) + (x1 - x0) in
  let newY := Pos.y (bubblePos b) + (y1 - y0) in
  10 <= newX <= innerWidth w - (if isChatOpen b then 360 else 70) ->
  10 <= newY <= innerHeight w - (if isChatOpen b then 550 else 70) ->
  bubblePos b1 = {| Pos.x := newX; Pos.y := newY |} /\
  isDragging b1 = true.
Proof.
  intros Hdown Hmove Hstart Hmoved newX newY Hx Hy.
  unfold handleDragStart in Hstart. rewrite Hdown in Hstart.
  injection Hstart as <-.
  unfold handleDragMove in Hmoved. cbn in Hmoved. rewrite Hmove in Hmoved.
  injection Hmoved as <-. cbn. subst newX newY. split; [|reflexivity].
  f_equal; lia.
Qed.

(** *** The image of a request *)

Lemma prefix_app (a s : string) :
  String.prefix a s = true -> exists t, s = a ++ t.
Proof.
  revert s. induction a as [|c a IH]; intros s H; [now exists s|].
  destruct s as [|d s]; [discriminate|]. cbn -[Ascii.ascii_dec] in H.
  destruct (Ascii.ascii_dec c d) as [->|]; [|discriminate].
  destruct (IH s H) as [t ->]. now exists t.
Qed.

Lemma no_comma_tail (c : Ascii.ascii) (s : string) :
  includes "," (String c s) = false -> c <> ","%char /\ includes "," s = false.
Proof.
  unfold includes. cbn -[Ascii.ascii_dec].
  destruct (Ascii.ascii_dec "," c) as [Heq|Hne].
  - now destruct s.
  - destruct (cut "," s) as [[before after]|]; [discriminate|]. split; congruence.
Qed.

Lemma marker_not_before (pre rest : string) :
  includes "," pre = false ->
  pre <> "" ->
  String.prefix "base64," (pre ++ "base64," ++ rest) = false.
Proof.
  intros Hcomma Hne.
  destruct (String.prefix "base64," (pre ++ "base64," ++ rest)) eqn:E; [|reflexivity].
  exfalso. apply prefix_app in E. destruct E as [t E].
  destruct pre as [|c1 [|c2 [|c3 [|c4 [|c5 [|c6 [|c7 pre]]]]]]];
    [congruence | cbn in E; congruence ..|].
  cbn in E. injection E as -> -> -> -> -> -> -> _.
  destruct pre; vm_compute in Hcomma; discriminate Hcomma.
Qed.

Lemma cut_marker (pre rest : string) :
  includes "," pre = false ->
  cut "base64," (pre ++ "base64," ++ rest) = Some (pre, rest).
Proof.
  induction pre as [|c pre IH]; intro Hcomma; [now destruct rest|].
  apply no_comma_tail in Hcomma as Htail. destruct Htail as [_ Htail].
  change (cut "base64," (String c pre ++ "base64," ++ rest))
    with (if String.prefix "base64," (String c pre ++ "base64," ++ rest)
          then Some (EmptyString, drop (String.length "base64,")
                                    (String c pre ++ "base64," ++ rest))
          else match cut "base64," (pre ++ "base64," ++ rest) with
               | Some (before, after) => Some (String c before, after)
               | None => None
               end).
  rewrite marker_not_before by (assumption || discriminate).
  now rewrite IH.
Qed.

Lemma cut_no_marker (s : string) :
  includes "," s = false -> cut "base64," s = None.
Proof.
  induction s as [|c s IH]; intro Hcomma; [reflexivity|].
  apply no_comma_tail in Hcomma as Htail. destruct Htail as [_ Htail].
  change (cut "base64," (String c s))
    with (if String.prefix "base64," (String c s)
          then Some (EmptyString, drop (String.length "base64,") (String c s))
          else match cut "base64," s with
               | Some (before, after) => Some (String c before, after)
               | None => None
               end).
  destruct (String.prefix "base64," (String c s)) eqn:E.
  - exfalso. apply prefix_app in E. destruct E as [t E]. rewrite E in Hcomma.
    destruct t; vm_compute in Hcomma; discriminate Hcomma.
  - now rewrite IH.
Qed.

(** For an image given as a data URL, the request has the text part and one
    image part that carries the payload after the base64 marker, nothing of
    what is before it, and says image/jpeg whatever the URL says.  (No comma
    occurs in base64 text, nor in the head of a data URL.) *)
Theorem requestParts_data_url
    (prompt : string) (history : option string) (head payload : string) :
  includes "," head = false ->
  includes "," payload = false ->
  requestParts prompt history (Some (head ++ "base64," ++ payload)) =
  [TextPart ("Lịch sử chat:" ++ newline
             ++ match history with Some h => h | None => "" end
             ++ newline ++ newline ++ "Yêu cầu mới của học sinh: " ++ prompt);
   InlineData "image/jpeg" (Some payload)].
Proof.
  intros Hhead Hpayload. unfold requestParts.
  replace (String.eqb (head ++ "base64," ++ payload) "") with false
    by now destruct head.
  unfold base64Data, includes, secondPiece.
  rewrite cut_marker by exact Hhead.
  now rewrite cut_no_marker by exact Hpayload.
Qed.

(** *** The send button *)

(** The panel never sends a blank message: what it hands to [onSendMessage] is
    the trimmed input, and either that is not empty or an image goes with it;
    the input and the image are then cleared.  When both are blank nothing is
    sent and nothing changes. *)
Theorem handleSend_never_blank
    (trim : string -> string) (c c' : Composer) (sent : option (string * option string)) :
  handleSend trim c = (c', sent) ->
  match sent with
  | Some (text, image) =>
      text = trim (input c) /\
      (text <> "" \/ exists data, image = Some data /\ data <> "") /\
      input c' = "" /\ selectedImage c' = None
  | None =>
      trim (input c) = "" /\ str_truthy (selectedImage c) = false /\ c' = c
  end.
Proof.
  unfold handleSend.
  destruct (String.eqb_spec (trim (input c)) "") as [Hblank|Htext];
    destruct (str_truthy (selectedImage c)) eqn:Himage; cbn [andb negb];
    intros [= <- <-]; try (repeat split; tauto).
  repeat split. right.
  destruct (selectedImage c) as [data|]; [|discriminate].
  exists data. split; [reflexivity|]. cbn in Himage.
  intros ->. discriminate.
Qed.

End App.

(** ** The scenarios, run

    The module is taken to have been loaded at time 0. *)

Example oneProject_state :
  oneProject 0 =
  {| projects := [project1 0]; currentProjectId := Some "1"; isLoading := false |}.
Proof. reflexivity. Qed.

Example threeProjects_state :
  map (fun p => (Project.id p, Project.lastModified p)) (projects (threeProjects 0)) =
    [("3", 3); ("2", 2); ("1", 10)] /\
  currentProjectId (threeProjects 0) = Some "3".
Proof. split; reflexivity. Qed.

Example withThreeSteps_state :
  generateGeometry (answering threeStepDocument) = Resolved threeStepScene /\
  withThreeSteps 0 =
  {| projects := [project1WithScene 0]; currentProjectId := Some "1"; isLoading := false |}.
Proof. split; reflexivity. Qed.

(** *** C9 *)

(** Moving the cursor of project 1 at time 7 while project 2 is the active one
    of the store: project 1, the second of the list, has the new cursor and
    time, and its transcript is as before. *)
Lemma updateActiveProject_merges_and_frames_witness :
  let updates :=
    {| Partial.id := None; Partial.name := None; Partial.subjectId := None;
       Partial.messages := None; Partial.geometryData := None;
       Partial.currentStepIndex := Some 2; Partial.lastModified := None |} in
  let s' := updateActiveProject (Some "1") updates 7 (twoProjects 0) in
  nth_error (projects (twoProjects 0)) 1 = Some (project1 0) /\
  List.length (projects s') = 2%nat /\
  exists p',
    nth_error (projects s') 1 = Some p' /\
    Project.currentStepIndex p' = 2 /\
    Project.messages p' = Project.messages (project1 0) /\
    Project.lastModified p' = 7.
Proof.
  intros updates s'.
  assert (H : nth_error (projects (twoProjects 0)) 1 = Some (project1 0)) by reflexivity.
  split; [exact H|].
  destruct (updateActiveProject_merges_and_frames
              (Some "1") updates 7 (twoProjects 0) 1 (project1 0) H)
    as (Hlen & _ & p' & Hnth & _ & Hmerged).
  split; [exact Hlen|].
  exists p'. split; [exact Hnth|].
  destruct (Hmerged eq_refl) as (_ & _ & _ & Hmsgs & _ & Hidx & Hmod).
  repeat split; assumption.
Defined.

(** *** C4 *)

(** On the one-project store a first message is sent without a credential and
    a second one is answered with the three-step document. *)
Lemma failed_generation_keeps_scene_witness :
  let s1 := handleSendMessage 0 "ve tam giac" withoutKey (at_ 2) (at_ 3) (oneProject 0) in
  let s2 := handleSendMessage 0 "ve lai" (answering threeStepDocument) (at_ 4) (at_ 5) s1 in
  generateGeometry withoutKey = Rejected ApiKeyMissing /\
  (exists p1,
      activeProject s1 = Some p1 /\
      Project.geometryData p1 = None /\
      map ChatMessage.text (Project.messages p1) =
        [ChatMessage.text (DEFAULT_WELCOME_MSG 0); JStr "ve tam giac"; JStr "Lỗi rồi em ạ."]) /\
  (exists p2,
      activeProject s2 = Some p2 /\
      Project.geometryData p2 = Some threeStepScene /\
      map ChatMessage.text (Project.messages p2) =
        [ChatMessage.text (DEFAULT_WELCOME_MSG 0); JStr "ve tam giac"; JStr "Lỗi rồi em ạ.";
         JStr "ve lai"; JStr "Thay ve xong roi."]).
Proof.
  intros s1 s2.
  destruct (failed_generation_keeps_scene 0
              "ve tam giac" "ve lai" withoutKey (answering threeStepDocument)
              ApiKeyMissing threeStepScene (at_ 2) (at_ 3) (at_ 4) (at_ 5)
              (oneProject 0) (project1 0) eq_refl eq_refl eq_refl eq_refl)
    as (_ & _ & (p1 & Hp1 & _ & Hg1 & Hm1) & (p2 & Hp2 & _ & Hg2 & Hm2)).
  split; [reflexivity|]. split.
  - exists p1. split; [exact Hp1|]. split; [exact Hg1|]. now rewrite Hm1.
  - exists p2. split; [exact Hp2|]. split; [exact Hg2|]. now rewrite Hm2.
Defined.

(** *** C6 *)

(** The project is at step 2 of its walkthrough when a new scene arrives. *)
Lemma new_scene_resets_cursor_witness :
  let atStep2 :=
    {| Project.id := "1";
       Project.name := Project.name (project1WithScene 0);
       Project.subjectId := "math";
       Project.messages := Project.messages (project1WithScene 0);
       Project.geometryData := Some threeStepScene;
       Project.currentStepIndex := 2;
       Project.lastModified := 6 |} in
  let s := {| projects := [atStep2]; currentProjectId := Some "1"; isLoading := true |} in
  let k := {| target := Some "1"; updatedMessages := Project.messages atStep2 |} in
  let data := threeStepScene in
  exists p',
    nth_error (projects (settle k (generateGeometry (answering threeStepDocument)) (at_ 8) s)) 0
      = Some p' /\
    Project.geometryData p' = Some data /\
    Project.currentStepIndex p' = 0.
Proof.
  intros atStep2 s k data.
  apply (new_scene_resets_cursor (answering threeStepDocument) data k (at_ 8) s 0%nat atStep2);
    reflexivity.
Defined.

(** *** C10 *)

Lemma reply_text_defaults_to_Xong_witness :
  generateGeometry (answering (JObj [])) <> Rejected TypeError /\
  exists p',
    activeProject
      (handleSendMessage 0 "ve tam giac" (answering (JObj [])) (at_ 4) (at_ 5) (oneProject 0))
      = Some p' /\
    map ChatMessage.text (Project.messages p') =
      [ChatMessage.text (DEFAULT_WELCOME_MSG 0); JStr "ve tam giac"; JStr "Xong!"].
Proof.
  split; [discriminate|].
  destruct (reply_text_defaults_to_Xong 0 "ve tam giac" (answering (JObj []))
              {| GeometryData.points := JArr []; GeometryData.edges := JArr [];
                 GeometryData.faces := JArr []; GeometryData.angles := JArr [];
                 GeometryData.circles := JArr []; GeometryData.steps := JArr [];
                 GeometryData.reasoning := JArr []; GeometryData.type := JStr "2D";
                 GeometryData.message := None; GeometryData.mathSolution := None |}
              (at_ 4) (at_ 5) (oneProject 0) (project1 0) eq_refl eq_refl eq_refl)
    as (p' & reply & Hp' & Hmsgs & _ & Hnone & _).
  exists p'. split; [exact Hp'|].
  rewrite Hmsgs. cbn. now rewrite (Hnone (or_introl eq_refl)).
Defined.

(** *** C7 *)

(** A message is sent from project 2; before the answer arrives the user opens
    project 1.  Project 1, the second of the list, is untouched by the answer,
    project 2 has it, and project 1 stays the active one. *)
Lemma outcome_goes_to_issuing_project_witness :
  let issued := send 0 "ve tam giac" (at_ 4) (twoProjects 0) in
  let k :=
    {| target := Some "2";
       updatedMessages :=
         (messages 0 (twoProjects 0) ++
          [ {| ChatMessage.id := "4"; ChatMessage.role := user;
               ChatMessage.text := JStr "ve tam giac"; ChatMessage.timestamp := 4 |} ])%list |} in
  let s := selectProject "1" (fst issued) in
  let s' := settle k (Resolved threeStepScene) (at_ 5) s in
  issued = (fst issued, Some k) /\
  currentProjectId s' = Some "1" /\
  nth_error (projects s') 1 = Some (project1 0) /\
  option_map Project.geometryData (nth_error (projects s') 0) = Some (Some threeStepScene).
Proof.
  intros issued k s s'.
  assert (Hsend : send 0 "ve tam giac" (at_ 4) (twoProjects 0) = (fst issued, Some k))
    by reflexivity.
  split; [exact Hsend|].
  destruct (outcome_goes_to_issuing_project 0 "ve tam giac" (at_ 4) (at_ 5)
              (twoProjects 0) (fst issued) k (Resolved threeStepScene) s
              1%nat (project1 0) Hsend eq_refl)
    as (_ & Hcur & p' & Hnth & Hother & _).
  split; [exact Hcur|]. split.
  - transitivity (Some p'); [exact Hnth|].
    f_equal. apply Hother. intro H. vm_compute in H. discriminate H.
  - reflexivity.
Defined.

(** *** C1 *)

(** In [threeProjects] project 3 is active and project 1 is the one modified
    last.  Deleting project 3 makes project 2 the active one. *)
Lemma deleteProject_active_moves_to_first_witness :
  let s' := deleteProject "3" true (threeProjects 0) in
  currentProjectId (threeProjects 0) = Some "3" /\
  exists first rest,
    projects s' = first :: rest /\
    Project.id first = "2" /\
    currentProjectId s' = Some (Project.id first) /\
    shownActive s' = [first].
Proof.
  intro s'.
  assert (Hnd : NoDup (map Project.id (projects (threeProjects 0)))).
  { vm_compute. repeat constructor; simpl; intuition discriminate. }
  assert (Hlen : (1 < List.length (projects (threeProjects 0)))%nat) by (vm_compute; lia).
  destruct (deleteProject_active_moves_to_first "3" (threeProjects 0) eq_refl Hnd Hlen)
    as (first & rest & Hfirst & Hproj & Hcur & _ & Hshown).
  split; [reflexivity|].
  exists first, rest. split; [exact Hproj|]. split.
  - vm_compute in Hfirst. now injection Hfirst as <- _.
  - split; [exact Hcur | exact Hshown].
Defined.

(** C1 as the spec states it fails on [threeProjects]: after project 3, the
    active one, is deleted from the store of three, the active project is
    project 2, last modified at time 2, while project 1 was modified at time
    10. *)
Lemma deleteProject_active_not_most_recent :
  let s := threeProjects 0 in
  let s' := deleteProject "3" true s in
  currentProjectId s = Some "3" /\
  List.length (projects s) = 3%nat /\
  exists p,
    activeProject s' = Some p /\
    Project.lastModified p = 2 /\
    ~ greatestLastModified p (projects s').
Proof.
  intros s s'. split; [reflexivity|]. split; [reflexivity|].
  eexists. split; [reflexivity|]. split; [reflexivity|].
  intros [_ Hmax].
  specialize (Hmax (nth 1 (projects s') (project1 0))).
  assert (Hin : In (nth 1 (projects s') (project1 0)) (projects s'))
    by (right; left; reflexivity).
  specialize (Hmax Hin). vm_compute in Hmax. apply Hmax. reflexivity.
Qed.

(** *** C5 *)

(** On the project with three steps, [goTo 1]. *)
Lemma setCurrentStepIndex_stores_index_unclamped_witness :
  let s' := setCurrentStepIndex 1 6 (withThreeSteps 0) in
  activeProject (withThreeSteps 0) = Some (project1WithScene 0) /\
  stepsLength threeStepScene = 3 /\
  currentStepIndex s' = 1 /\
  currentStepIndex s' = clamped 1 3.
Proof.
  intro s'.
  destruct (setCurrentStepIndex_stores_index_unclamped 1 6
              (withThreeSteps 0) (project1WithScene 0) eq_refl)
    as (p' & _ & _ & _ & _ & Hread & Hclamp).
  split; [reflexivity|]. split; [reflexivity|]. split; [exact Hread|].
  apply (Hclamp threeStepScene eq_refl); vm_compute; intuition discriminate.
Defined.

(** C5 as the spec states it fails on the project with three steps: [goTo 99]
    leaves the cursor at 99, not 2, and [goTo (-5)] at -5, not 0. *)
Lemma goTo_out_of_range_not_clamped :
  let s := withThreeSteps 0 in
  option_map stepsLength (geometryData s) = Some 3 /\
  currentStepIndex (setCurrentStepIndex 99 6 s) = 99 /\
  clamped 99 3 = 2 /\
  currentStepIndex (setCurrentStepIndex (-5) 6 s) = -5 /\
  clamped (-5) 3 = 0 /\
  currentStepIndex (setCurrentStepIndex 99 6 s) <> clamped 99 3 /\
  currentStepIndex (setCurrentStepIndex (-5) 6 s) <> clamped (-5) 3.
Proof.
  intro s. repeat split; try reflexivity; vm_compute; discriminate.
Qed.

(** *** C3 *)

(** A document with points and a 3D type and nothing else. *)
Lemma normalize_fills_absent_fields_witness :
  let parsed := JObj [("points", JArr [JObj [("id", JStr "A")]]); ("type", JStr "3D")] in
  forallb (fun k => absentOrArray (prop parsed k)) containerNames = true /\
  exists g,
    normalize parsed = Resolved g /\
    GeometryData.points g = JArr [JObj [("id", JStr "A")]] /\
    GeometryData.steps g = JArr [] /\
    GeometryData.type g = JStr "3D".
Proof.
  intro parsed.
  assert (Hnull : parsed <> JNull) by discriminate.
  assert (Hshape : forallb (fun k => absentOrArray (prop parsed k)) containerNames = true)
    by reflexivity.
  destruct (normalize_fills_absent_fields parsed Hnull Hshape)
    as (g & Hg & Hfields & _ & Htype & _).
  assert (Hin1 : In ("points", GeometryData.points g) (containers g))
    by (left; reflexivity).
  assert (Hin2 : In ("steps", GeometryData.steps g) (containers g))
    by (do 5 right; left; reflexivity).
  destruct (Hfields _ _ Hin1) as (_ & _ & Hpoints).
  destruct (Hfields _ _ Hin2) as (_ & Hsteps & _).
  split; [exact Hshape|].
  exists g. split; [exact Hg|]. split; [|split].
  - apply Hpoints. reflexivity.
  - apply Hsteps. reflexivity.
  - now rewrite (Htype (JStr "3D") eq_refl).
Defined.

(** C3 as the spec states it fails on [document4D]: nothing is missing but
    optional fields, the containers are sequences, and the [type] of the result
    is the document's "4D", neither "2D" nor "3D". *)
Lemma normalize_keeps_unrecognized_type :
  forallb (fun k => absentOrArray (prop document4D k)) containerNames = true /\
  exists g,
    normalize document4D = Resolved g /\
    GeometryData.type g = JStr "4D" /\
    is2Dor3D (GeometryData.type g) = false /\
    GeometryData.type g <> JStr "2D".
Proof.
  split; [reflexivity|].
  eexists. split; [reflexivity|].
  split; [reflexivity|]. split; [reflexivity|]. discriminate.
Qed.

(** *** C8 *)

(** C8 as the spec states it fails on the one-project store: the project
    created next is not added at the end of the sequence. *)
Lemma createProject_not_at_the_end :
  let s := oneProject 0 in
  let s' := createProject 0 None (at_ 2) s in
  map Project.id (projects s) = ["1"] /\
  map Project.id (projects s') = ["2"; "1"] /\
  ~ exists newProj, projects s' = (projects s ++ [newProj])%list.
Proof.
  intros s s'. split; [reflexivity|]. split; [reflexivity|].
  intros [newProj H]. vm_compute in H. discriminate H.
Qed.

(** *** C2 *)

(** C2.  What the code does on the one-project store: deleting its project
    empties the store and [currentProjectId] still holds the id "1" of the
    deleted project, which no project answers to; the guard of
    [handleSendMessage] on [currentProjectId] then lets a message through
    though there is no project to receive it.  The project created next is the
    only one and the active one. *)
Lemma deleteProject_only_project_keeps_id :
  let s := oneProject 0 in
  let s' := deleteProject "1" true s in
  let s'' := createProject 0 None (at_ 2) s' in
  map Project.id (projects s) = ["1"] /\
  currentProjectId s = Some "1" /\
  projects s' = [] /\
  currentProjectId s' = Some "1" /\
  currentProjectId s' <> None /\
  activeProject s' = None /\
  snd (send 0 "ve tam giac" (at_ 2) s') <> None /\
  map Project.id (projects s'') = ["2"] /\
  currentProjectId s'' = Some "2" /\
  option_map Project.id (activeProject s'') = Some "2".
Proof.
  intros s s' s''. repeat split; try reflexivity; discriminate.
Qed.

(** ** Beyond the claims, run *)

(** The three projects with project 1 modified last, as a reload finds them:
    no active reference yet. *)
Lemma initialize_opens_most_recent_witness :
  let s := {| projects := projects (threeProjects 0);
              currentProjectId := None; isLoading := false |} in
  projects s <> [] /\
  currentProjectId (initialize 0 (at_ 20) s) = Some "1" /\
  exists q,
    In q (projects s) /\
    currentProjectId (initialize 0 (at_ 20) s) = Some (Project.id q) /\
    forall r, In r (projects s) -> Project.lastModified r <= Project.lastModified q.
Proof.
  intro s.
  assert (Hne : projects s <> []) by discriminate.
  destruct (initialize_opens_most_recent 0 (at_ 20) s Hne eq_refl)
    as (_ & before & q & after & Hsplit & Hbefore & Hafter & Hcur & _).
  split; [exact Hne|]. split; [reflexivity|].
  exists q. split; [rewrite Hsplit; apply in_or_app; right; now left|].
  split; [exact Hcur|].
  intros r Hr. rewrite Hsplit in Hr. apply in_app_or in Hr.
  destruct Hr as [Hr|[<-|Hr]].
  - specialize (Hbefore r Hr). lia.
  - lia.
  - now apply Hafter.
Defined.

(** The empty store; the three projects as a reload finds them; and two
    projects of the same id, the second modified later than the first. *)
Lemma initialize_activates_a_project_witness :
  let reloaded := {| projects := projects (threeProjects 0);
                     currentProjectId := None; isLoading := false |} in
  let twins :=
    {| projects :=
         projects
           (createProject 0 None {| forId := 1; forTimestamp := 1; forLastModified := 1 |}
              (createProject 0 None {| forId := 1; forTimestamp := 1; forLastModified := 5 |}
                 emptyStore));
       currentProjectId := None; isLoading := false |} in
  (exists p,
      activeProject (initialize 0 (at_ 1) emptyStore) = Some p /\
      projects (initialize 0 (at_ 1) emptyStore) = [p] /\
      Project.name p = "Bài toán mới") /\
  (exists p,
      activeProject (initialize 0 (at_ 20) reloaded) = Some p /\
      In p (projects reloaded) /\
      forall r, In r (projects reloaded) -> Project.lastModified r <= Project.lastModified p) /\
  (exists p q,
      activeProject (initialize 0 (at_ 20) twins) = Some p /\
      Project.id p = Project.id q /\
      Project.lastModified p = 1 /\
      Project.lastModified q = 5).
Proof.
  intros reloaded twins. split; [|split].
  - destruct (initialize_activates_a_project 0 (at_ 1) emptyStore eq_refl)
      as (p & Hp & Hempty & _).
    destruct (Hempty eq_refl) as (Honly & _ & Hname & _).
    exists p. repeat split; assumption.
  - destruct (initialize_activates_a_project 0 (at_ 20) reloaded eq_refl)
      as (p & Hp & _ & Hsome).
    assert (Hne : projects reloaded <> []) by discriminate.
    destruct (Hsome Hne) as (_ & q & Hq & Hmax & _ & _ & Hsame).
    assert (Hnd : NoDup (map Project.id (projects reloaded))).
    { vm_compute. repeat constructor; simpl; intuition discriminate. }
    exists p. split; [exact Hp|]. rewrite (Hsame Hnd). split; assumption.
  - destruct (initialize_activates_a_project 0 (at_ 20) twins eq_refl)
      as (p & Hp & _).
    exists p, (nth 1 (projects twins) p).
    split; [exact Hp|].
    assert (E : activeProject (initialize 0 (at_ 20) twins)
                = Some (nth 0 (projects twins) p)) by reflexivity.
    rewrite Hp in E. injection E as E.
    rewrite E at 1 3. repeat split.
Defined.

(** Project 2 is deleted while project 3 is the active one. *)
Lemma deleteProject_other_keeps_active_witness :
  let s' := deleteProject "2" true (threeProjects 0) in
  map Project.id (projects s') = ["3"; "1"] /\
  currentProjectId s' = Some "3" /\
  activeProject s' = activeProject (threeProjects 0).
Proof.
  intro s'.
  destruct (deleteProject_other_keeps_active "2" true (threeProjects 0) eq_refl)
    as [Hcur Hactive].
  split; [reflexivity|]. split; [exact Hcur | exact Hactive].
Defined.

Lemma deleteProject_absent_witness :
  deleteProject "9" true (threeProjects 0) = threeProjects 0.
Proof.
  apply (deleteProject_absent "9" true (threeProjects 0)); reflexivity.
Defined.

(** After its only project is deleted the store still has the reference "1";
    a message sent then reaches nothing. *)
Lemma handleSendMessage_without_project_witness :
  let s := deleteProject "1" true (oneProject 0) in
  let s' := handleSendMessage 0 "ve tam giac" (answering threeStepDocument) (at_ 4) (at_ 5) s in
  currentProjectId s = Some "1" /\
  projects s' = [] /\
  currentProjectId s' = Some "1".
Proof.
  intros s s'.
  destruct (handleSendMessage_without_project 0 "ve tam giac"
              (answering threeStepDocument) (at_ 4) (at_ 5) s eq_refl)
    as [Hprojects Hcur].
  split; [reflexivity|]. split; [exact Hprojects | exact Hcur].
Defined.

(** A message is sent from project 2, which is deleted before the answer
    arrives. *)
Lemma settle_after_delete_witness :
  let issued := send 0 "ve tam giac" (at_ 4) (twoProjects 0) in
  let k :=
    {| target := Some "2";
       updatedMessages :=
         (messages 0 (twoProjects 0) ++
          [ {| ChatMessage.id := "4"; ChatMessage.role := user;
               ChatMessage.text := JStr "ve tam giac"; ChatMessage.timestamp := 4 |} ])%list |} in
  let s' := deleteProject "2" true (fst issued) in
  snd issued = Some k /\
  map Project.id (projects s') = ["1"] /\
  projects (settle k (Resolved threeStepScene) (at_ 5) s') = projects s'.
Proof.
  intros issued k s'.
  destruct (settle_after_delete k (Resolved threeStepScene) (at_ 5) "2" (fst issued) eq_refl)
    as [Hprojects _].
  split; [reflexivity|]. split; [reflexivity | exact Hprojects].
Defined.

(** The project at step 2 of its walkthrough is edited on the canvas. *)
Lemma onDataUpdate_keeps_cursor_witness :
  let s := setCurrentStepIndex 2 6 (withThreeSteps 0) in
  let p :=
    {| Project.id := "1";
       Project.name := Project.name (project1WithScene 0);
       Project.subjectId := "math";
       Project.messages := Project.messages (project1WithScene 0);
       Project.geometryData := Some threeStepScene;
       Project.currentStepIndex := 2;
       Project.lastModified := 6 |} in
  let s' := onDataUpdate threeStepScene 7 s in
  activeProject s = Some p /\
  geometryData s' = Some threeStepScene /\
  currentStepIndex s' = 2 /\
  messages 0 s' = Project.messages (project1WithScene 0).
Proof.
  intros s p s'.
  assert (Hp : activeProject s = Some p) by reflexivity.
  destruct (onDataUpdate_keeps_cursor 0 threeStepScene 7 s p Hp)
    as (Hscene & Hcursor & Hmessages & _).
  split; [exact Hp|]. split; [exact Hscene|]. split.
  - exact (eq_trans Hcursor eq_refl).
  - exact (eq_trans Hmessages eq_refl).
Defined.

(** Two messages are sent from the one project before either is answered; the
    first is answered with a scene, the second fails. *)
Lemma overlapping_messages_last_answer_wins_witness :
  exists s1 k1 s2 k2,
    send 0 "ve tam giac" (at_ 2) (oneProject 0) = (s1, Some k1) /\
    send 0 "ve lai" (at_ 3) s1 = (s2, Some k2) /\
    (exists p',
        activeProject
          (settle k2 (Rejected ServiceError) (at_ 5)
             (settle k1 (Resolved threeStepScene) (at_ 4) s2)) = Some p' /\
        map ChatMessage.text (Project.messages p') =
          [ChatMessage.text (DEFAULT_WELCOME_MSG 0); JStr "ve tam giac"; JStr "ve lai";
           JStr "Lỗi rồi em ạ."]).
Proof.
  destruct (overlapping_messages_last_answer_wins 0
              "ve tam giac" "ve lai" (at_ 2) (at_ 3) (at_ 4) (at_ 5)
              (Resolved threeStepScene) (Rejected ServiceError)
              (oneProject 0) (project1 0) eq_refl eq_refl)
    as (s1 & k1 & s2 & k2 & H1 & H2 & (p' & Hp' & Hm) & _).
  exists s1, k1, s2, k2. split; [exact H1|]. split; [exact H2|].
  exists p'. split; [exact Hp'|]. now rewrite Hm.
Defined.

(** The store of three projects, with nothing in flight. *)
Lemma threeProjects_reachable :
  reachable 0 3 {| state := threeProjects 0; inFlight := [] |}.
Proof.
  change {| state := threeProjects 0; inFlight := [] |}
    with (handle 0 (OpenProject "3")
            (handle 0 (MoveCursor 1 10)
               (handle 0 (OpenProject "1")
                  (handle 0 (NewProject (at_ 3))
                     (handle 0 (NewProject (at_ 2))
                        (handle 0 (NewProject (at_ 1))
                           {| state := emptyStore; inFlight := [] |})))))).
  apply (reach_event 0 3 _ (OpenProject "3")); [|reflexivity].
  apply (reach_event 0 3 _ (MoveCursor 1 10)); [|reflexivity].
  apply (reach_event 0 3 _ (OpenProject "1")); [|reflexivity].
  apply (reach_event 0 2 _ (NewProject (at_ 3))); [|reflexivity].
  apply (reach_event 0 1 _ (NewProject (at_ 2))); [|reflexivity].
  apply (reach_event 0 0 _ (NewProject (at_ 1))); [|reflexivity].
  apply reach_start.
Qed.

(** A message is sent from the only project, the project is deleted, and then
    the answer arrives. *)
Lemma answered_after_delete_reachable :
  reachable 0 1
    (handle 0 (Answer 0 (answering threeStepDocument) (at_ 5))
       (handle 0 (DeleteProject "1" true)
          (handle 0 (Send "ve tam giac" (at_ 4))
             (handle 0 (Mount (at_ 1)) {| state := emptyStore; inFlight := [] |})))).
Proof.
  apply (reach_event 0 1 _ (Answer 0 (answering threeStepDocument) (at_ 5)));
    [|reflexivity].
  apply (reach_event 0 1 _ (DeleteProject "1" true)); [|reflexivity].
  apply (reach_event 0 1 _ (Send "ve tam giac" (at_ 4))); [|reflexivity].
  apply (reach_event 0 0 _ (Mount (at_ 1))); [|reflexivity].
  apply reach_start.
Qed.

Lemma reachable_ids_distinct_witness :
  NoDup (map Project.id (projects (threeProjects 0))).
Proof.
  exact (reachable_ids_distinct 0 3 _ threeProjects_reachable).
Defined.

Lemma reachable_active_unless_empty_witness :
  (projects (threeProjects 0) = [] \/ exists p, activeProject (threeProjects 0) = Some p) /\
  (let pg :=
     handle 0 (Answer 0 (answering threeStepDocument) (at_ 5))
       (handle 0 (DeleteProject "1" true)
          (handle 0 (Send "ve tam giac" (at_ 4))
             (handle 0 (Mount (at_ 1)) {| state := emptyStore; inFlight := [] |}))) in
   projects (state pg) = [] \/ exists p, activeProject (state pg) = Some p).
Proof.
  split.
  - exact (reachable_active_unless_empty 0 3 _ threeProjects_reachable).
  - exact (reachable_active_unless_empty 0 1 _ answered_after_delete_reachable).
Defined.

Lemma reachable_transcripts_begin_with_welcome_witness :
  Forall
    (fun p =>
       exists at_time rest,
         Project.messages p =
         {| ChatMessage.id := "welcome";
            ChatMessage.role := model;
            ChatMessage.text := ChatMessage.text (DEFAULT_WELCOME_MSG 0);
            ChatMessage.timestamp := at_time |} :: rest)
    (projects (threeProjects 0)).
Proof.
  apply Forall_forall.
  exact (reachable_transcripts_begin_with_welcome 0 3 _ threeProjects_reachable).
Defined.

Lemma createProject_same_reading_shares_id_witness :
  let s2 := createProject 0 None (at_ 1) (createProject 0 None (at_ 1) emptyStore) in
  map Project.id (projects s2) = ["1"; "1"] /\
  projects (deleteProject "1" true s2) = [].
Proof.
  intro s2.
  destruct (createProject_same_reading_shares_id 0 None None (at_ 1) (at_ 1)
              emptyStore eq_refl)
    as [_ Hdeleted].
  split; [reflexivity | exact Hdeleted].
Defined.

(** The bubble of a 1280 by 720 window, chat closed, is dragged from (1210, 580)
    far beyond the lower right corner. *)
Lemma handleDragMove_stays_on_screen_witness :
  let w := {| innerWidth := 1280; innerHeight := 720 |} in
  let b :=
    {| bubblePos := {| Pos.x := 1200; Pos.y := 570 |};
       isDragging := true;
       dragStartPos := {| Pos.x := 10; Pos.y := 10 |};
       isChatOpen := false |} in
  exists b',
    handleDragMove w (MouseEvent 5000 5000) b = Some b' /\
    10 <= Pos.x (bubblePos b') <= 1210 /\
    10 <= Pos.y (bubblePos b') <= 650.
Proof.
  intros w b. eexists. split; [reflexivity|].
  destruct (handleDragMove_stays_on_screen w (MouseEvent 5000 5000) b _ eq_refl eq_refl)
    as (Hx & Hy & Hright & Hbottom).
  cbn in Hright, Hbottom. split; split; try assumption.
  - apply Hright. lia.
  - apply Hbottom. lia.
Defined.

(** The same bubble is taken at (1210, 580) and moved 100 pixels left and 50
    up. *)
Lemma drag_follows_pointer_witness :
  let w := {| innerWidth := 1280; innerHeight := 720 |} in
  let b := initialBubble w in
  exists b0 b1,
    handleDragStart (MouseEvent 1210 580) b = Some b0 /\
    handleDragMove w (TouchEvent [(1110, 530)]) b0 = Some b1 /\
    bubblePos b = {| Pos.x := 1200; Pos.y := 570 |} /\
    bubblePos b1 = {| Pos.x := 1100; Pos.y := 520 |}.
Proof.
  intros w b. eexists. eexists. split; [reflexivity|]. split; [reflexivity|].
  split; [reflexivity|].
  refine (proj1 (drag_follows_pointer w (MouseEvent 1210 580) (TouchEvent [(1110, 530)])
                   b _ _ 1210 580 1110 530 eq_refl eq_refl eq_refl eq_refl _ _));
    cbn; lia.
Defined.

Lemma requestParts_data_url_witness :
  requestParts "ve tam giac" None (Some "data:image/png;base64,iVBORw0KGgo=") =
  [TextPart ("Lịch sử chat:" ++ newline ++ newline ++ newline
             ++ "Yêu cầu mới của học sinh: ve tam giac");
   InlineData "image/jpeg" (Some "iVBORw0KGgo=")].
Proof.
  apply (requestParts_data_url "ve tam giac" None "data:image/png;" "iVBORw0KGgo=");
    reflexivity.
Defined.

(** An image with nothing typed, with a [trim] that finds nothing to trim. *)
Lemma handleSend_never_blank_witness :
  let c := {| input := ""; selectedImage := Some "data:image/png;base64,iVBORw0KGgo=" |} in
  exists c' text image,
    handleSend (fun s => s) c = (c', Some (text, image)) /\
    text = "" /\
    image = selectedImage c /\
    input c' = "" /\ selectedImage c' = None.
Proof.
  intro c. eexists. eexists. eexists. split; [reflexivity|].
  destruct (handleSend_never_blank (fun s => s) c _ _ eq_refl)
    as (Htext & _ & Hinput & Himage).
  repeat split; assumption.
Defined.

(** In the store of three projects project 1 is opened, a fourth project is
    created at time 11 and deleted again: project 3, the first of the list, is
    the active one afterwards. *)
Lemma create_then_delete_witness :
  let s := selectProject "1" (threeProjects 0) in
  let s' := deleteProject "11" true (createProject 0 None (at_ 11) s) in
  currentProjectId s = Some "1" /\
  projects s' = projects s /\
  currentProjectId s' = Some "3".
Proof.
  intros s s'.
  destruct (create_then_delete 0 None (at_ 11) s eq_refl) as [Hprojects Hcur].
  split; [reflexivity|]. split; [exact Hprojects | exact Hcur].
Defined.

(** In the store of three projects project 2 is opened and its cursor moved at
    time 20; on the projects as they are then, the initialising effect opens
    project 2. *)
Lemma initialize_after_update_witness :
  let s := selectProject "2" (threeProjects 0) in
  let s1 := setCurrentStepIndex 1 20 s in
  map Project.lastModified (projects s) = [3; 2; 10] /\
  currentProjectId
    (initialize 0 (at_ 30)
       {| projects := projects s1; currentProjectId := None; isLoading := false |})
  = Some "2".
Proof.
  intros s s1. split; [reflexivity|].
  refine (initialize_after_update 0
            {| Partial.id := None; Partial.name := None; Partial.subjectId := None;
               Partial.messages := None; Partial.geometryData := None;
               Partial.currentStepIndex := Some 1; Partial.lastModified := None |}
            20 (at_ 30) s
            {| Project.id := "2"; Project.name := "Bài toán 2"; Project.subjectId := "math";
               Project.messages :=
                 [ {| ChatMessage.id := "welcome"; ChatMessage.role := model;
                      ChatMessage.text := ChatMessage.text (DEFAULT_WELCOME_MSG 0);
                      ChatMessage.timestamp := 2 |} ];
               Project.geometryData := None; Project.currentStepIndex := 0;
               Project.lastModified := 2 |}
            eq_refl eq_refl _).
  intros q [<-|[<-|[<-|[]]]]; cbn; lia.
Defined.

(** *** C10 *)

(** C10 as the spec states it fails on a document whose message is [false]:
    the message is there, and is not the empty string, yet the reply is
    "Xong!" and not the message. *)
Lemma reply_for_falsy_message_is_Xong :
  let rt := answering (JObj [("points", JArr []); ("message", JBool false)]) in
  exists data p' reply,
    generateGeometry rt = Resolved data /\
    GeometryData.message data = Some (JBool false) /\
    GeometryData.message data <> None /\
    GeometryData.message data <> Some (JStr "") /\
    activeProject (handleSendMessage 0 "ve tam giac" rt (at_ 4) (at_ 5) (oneProject 0))
      = Some p' /\
    List.last (map Some (Project.messages p')) None = Some reply /\
    ChatMessage.role reply = model /\
    ChatMessage.text reply = JStr "Xong!" /\
    Some (ChatMessage.text reply) <> GeometryData.message data.
Proof.
  intro rt. eexists. eexists. eexists.
  split; [reflexivity|]. split; [reflexivity|].
  split; [discriminate|]. split; [discriminate|].
  split; [reflexivity|]. split; [reflexivity|].
  split; [reflexivity|]. split; [reflexivity|]. discriminate.
Qed.
